(** * GraphQL worker for the OpenAI chat API: resolvers and HTTP dispatch

    A shallow embedding of [src/index.js]: the two resolvers ([health] and
    [chat]), [setCorsHeaders] and the worker's [fetch] handler, followed by
    the properties of the field mapping, the error translation and the
    routing. *)

From Stdlib Require Import ZArith List Bool Ascii String Lia.
From Stdlib Require Import Floats.SpecFloat.
From stdpp Require Import base gmap strings.
Import ListNotations.

Local Open Scope string_scope.
Local Open Scope Z_scope.

(** ** JavaScript values *)

Module JS.

(** The values the program handles are JSON data plus [undefined].  Numbers
    are IEEE 754 binary64 values, in the Standard Library's specification
    format (sign, mantissa, exponent) and in canonical form.  An object is
    its list of own properties in insertion order. *)
#[warnings="-register-all"] Inductive value : Type :=
| VUndefined
| VNull
| VBool (b : bool)
| VNum (x : spec_float)
| VStr (s : string)
| VArr (xs : list value)
| VObj (fs : list (string * value)).

Definition obj : Type := list (string * value).

(** The number literals of the source, as binary64 values. *)
Definition num_1_0 : spec_float := S754_finite false 4503599627370496 (-52).
Definition num_0_0 : spec_float := S754_zero false.
(** 0.9 is the double 0x3FECCCCCCCCCCCCD. *)
Definition num_0_9 : spec_float := S754_finite false 8106479329266893 (-53).
(** 0.1 is the double 0x3FB999999999999A. *)
Definition num_0_1 : spec_float := S754_finite false 7205759403792794 (-56).
Definition num_neg_0 : spec_float := S754_zero true.

(** [ToBoolean]: the test of [if (x)], [!x] and [x ? a : b]. *)
Definition truthy (v : value) : bool :=
  match v with
  | VUndefined | VNull => false
  | VBool b => b
  | VNum x =>
      match x with
      | S754_zero _ | S754_nan => false
      | _ => true
      end
  | VStr s => negb (String.eqb s "")
  | VArr _ | VObj _ => true
  end.

(** [v === n] for a number literal [n]: only a number is strictly equal to
    a number, by IEEE comparison (NaN equals nothing, -0 equals +0). *)
Definition strict_eq_num (v : value) (n : spec_float) : bool :=
  match v with
  | VNum x => SFeqb x n
  | _ => false
  end.

(** [v !== undefined]. *)
Definition is_undefined (v : value) : bool :=
  match v with
  | VUndefined => true
  | _ => false
  end.

(** Own-property lookup [o.k] on an object literal: the first binding of
    [k], [undefined] when there is none. *)
Fixpoint obj_lookup (fs : obj) (k : string) : option value :=
  match fs with
  | [] => None
  | (k', v) :: fs' => if String.eqb k' k then Some v else obj_lookup fs' k
  end.

Definition obj_get (fs : obj) (k : string) : value :=
  match obj_lookup fs k with
  | Some v => v
  | None => VUndefined
  end.

(** Assignment [o.k = v]: overwrite in place, or append a new property. *)
Fixpoint obj_set (fs : obj) (k : string) (v : value) : obj :=
  match fs with
  | [] => [(k, v)]
  | (k', v') :: fs' =>
      if String.eqb k' k then (k', v) :: fs' else (k', v') :: obj_set fs' k v
  end.

(** Errors: the class of the thrown object and its [message]. *)
Inductive error_class : Type :=
| Error
| TypeError
| SyntaxError
| OpenAIError
| APIError
| APIErrorSubclass (name : string).

Record exn : Type := mkExn { exn_class : error_class; exn_message : string }.

(** [error instanceof OpenAI.APIError]. *)
Definition instanceof_APIError (e : exn) : bool :=
  match exn_class e with
  | APIError | APIErrorSubclass _ => true
  | _ => false
  end.

(** The result of evaluating a piece of code: a value, or a thrown error
    (for an async function: a resolved or a rejected promise). *)
Inductive outcome (A : Type) : Type :=
| Normal (a : A)
| Throw (e : exn).
Arguments Normal {A} a.
Arguments Throw {A} e.

End JS.
Import JS.

(** ** Effects

    The worker talks to the OpenAI SDK.  A computation threads the log of
    the SDK operations it has performed, and ends normally or by throwing. *)

Module Eff.

Inductive event : Type :=
| EvNewClient (options : value)
| EvCreate (requestParams : value).

Definition M (A : Type) : Type := list event -> outcome A * list event.

Definition ret {A} (a : A) : M A := fun log => (Normal a, log).

Definition throw {A} (e : exn) : M A := fun log => (Throw e, log).

Definition bind {A B} (m : M A) (k : A -> M B) : M B :=
  fun log =>
    match m log with
    | (Normal a, log') => k a log'
    | (Throw e, log') => (Throw e, log')
    end.

(** [try { m } catch (error) { h error }]. *)
Definition try_catch {A} (m : M A) (h : exn -> M A) : M A :=
  fun log =>
    match m log with
    | (Normal a, log') => (Normal a, log')
    | (Throw e, log') => h e log'
    end.

(** Perform an SDK operation: record it, then continue with its outcome. *)
Definition perform {A} (ev : event) (r : outcome A) : M A :=
  fun log => (r, (log ++ [ev])%list).

(** A computation that performs no SDK operation. *)
Definition silent {A} (m : M A) : Prop := forall log, snd (m log) = log.

End Eff.
Import Eff.

Notation "'let*' x ':=' m 'in' k" := (bind m (fun x => k))
  (at level 10, x name, m at level 100, k at level 200).

(** Reading a property of [undefined] or [null] throws a [TypeError]; the
    message is V8's.  On other values the property is looked up; strings,
    numbers, booleans and arrays have none of the names this program reads
    ([choices], [id], [message], [usage], ...), so those give [undefined]. *)
Definition get_prop (v : value) (k : string) : M value :=
  match v with
  | VUndefined =>
      throw (mkExn TypeError
        ("Cannot read properties of undefined (reading '" +:+ k +:+ "')"))
  | VNull =>
      throw (mkExn TypeError
        ("Cannot read properties of null (reading '" +:+ k +:+ "')"))
  | VObj fs => ret (obj_get fs k)
  | _ => ret VUndefined
  end.

(** Indexing [v[0]]. *)
Definition get_index0 (v : value) : M value :=
  match v with
  | VUndefined =>
      throw (mkExn TypeError "Cannot read properties of undefined (reading '0')")
  | VNull =>
      throw (mkExn TypeError "Cannot read properties of null (reading '0')")
  | VArr xs => ret (match xs with x :: _ => x | [] => VUndefined end)
  | VStr s =>
      ret (match s with String c _ => VStr (String c "") | EmptyString => VUndefined end)
  | VObj fs => ret (obj_get fs "0")
  | _ => ret VUndefined
  end.

(** ** The clock

    [new Date().toISOString()] of the health endpoint, after ECMA-262: a time
    value is a number of milliseconds since the epoch; it is split into a
    day number and a time within the day, the day number into a civil date
    of the proleptic Gregorian calendar. *)

Module Date.

Definition msPerDay : Z := 86400000.

Definition Day (t : Z) : Z := t / msPerDay.
Definition HourFromTime (t : Z) : Z := (t / 3600000) mod 24.
Definition MinFromTime (t : Z) : Z := (t / 60000) mod 60.
Definition SecFromTime (t : Z) : Z := (t / 1000) mod 60.
Definition msFromTime (t : Z) : Z := t mod 1000.

(** Year (of a year starting in March), month (1-12) and day of the month
    (1-31) of a day within its 400-year era of 146097 days. *)
Definition civil_of_doe (doe : Z) : Z * Z * Z :=
  let yoe := (doe - doe / 1460 + doe / 36524 - doe / 146096) / 365 in
  let doy := doe - (365 * yoe + yoe / 4 - yoe / 100) in
  let mp := (5 * doy + 2) / 153 in
  let d := doy - (153 * mp + 2) / 5 + 1 in
  let m := if mp <? 10 then mp + 3 else mp - 9 in
  (yoe, m, d).

Definition civil_from_days (day : Z) : Z * Z * Z :=
  let z := day + 719468 in
  let era := z / 146097 in
  let doe := z mod 146097 in
  let '(yoe, m, d) := civil_of_doe doe in
  let y := yoe + era * 400 in
  (if m <=? 2 then y + 1 else y, m, d).

Definition YearFromTime (t : Z) : Z := fst (fst (civil_from_days (Day t))).
(** Months count from 0 in ECMA-262. *)
Definition MonthFromTime (t : Z) : Z := snd (fst (civil_from_days (Day t))) - 1.
Definition DateFromTime (t : Z) : Z := snd (civil_from_days (Day t)).

Definition digit (n : Z) : ascii := ascii_of_nat (48 + Z.to_nat n).

(** The last [w] decimal digits of [n], zero padded. *)
Fixpoint pad (w : nat) (n : Z) : string :=
  match w with
  | O => ""
  | S w' => pad w' (n / 10) +:+ String (digit (n mod 10)) ""
  end.

(** Years 0 to 9999 print with four digits, the others as an expanded year:
    a sign and six digits. *)
Definition year_string (y : Z) : string :=
  if (0 <=? y) && (y <=? 9999) then pad 4 y
  else (if y <? 0 then "-" else "+") +:+ pad 6 (Z.abs y).

Definition toISOString (t : Z) : string :=
  year_string (YearFromTime t) +:+ "-" +:+ pad 2 (MonthFromTime t + 1) +:+ "-"
  +:+ pad 2 (DateFromTime t) +:+ "T" +:+ pad 2 (HourFromTime t) +:+ ":"
  +:+ pad 2 (MinFromTime t) +:+ ":" +:+ pad 2 (SecFromTime t) +:+ "."
  +:+ pad 3 (msFromTime t) +:+ "Z".

(** The range of time values a [Date] can hold: 100,000,000 days either
    side of the epoch. *)
Definition time_value (t : Z) : Prop :=
  -8640000000000000 <= t <= 8640000000000000.

(** *** Recognising the ISO 8601 format *)

Definition digit_val (c : ascii) : option Z :=
  let n := Z.of_nat (nat_of_ascii c) in
  if (48 <=? n) && (n <=? 57) then Some (n - 48) else None.

(** The number a string of decimal digits writes; [None] when a character
    is not a digit. *)
Fixpoint digits_val (acc : Z) (cs : list ascii) : option Z :=
  match cs with
  | [] => Some acc
  | c :: cs' =>
      match digit_val c with
      | Some d => digits_val (10 * acc + d) cs'
      | None => None
      end
  end.

Definition field_in (cs : list ascii) (lo hi : Z) : bool :=
  match digits_val 0 cs with
  | Some n => (lo <=? n) && (n <=? hi)
  | None => false
  end.

(** [-MM-DDTHH:mm:ss.sssZ] with every field in its range. *)
Definition iso8601_rest (cs : list ascii) : bool :=
  match cs with
  | [d1; m1; m2; d2; a1; a2; t; h1; h2; c1; i1; i2; c2; s1; s2; p; f1; f2; f3; z] =>
      Ascii.eqb d1 "-" && field_in [m1; m2] 1 12
      && Ascii.eqb d2 "-" && field_in [a1; a2] 1 31
      && Ascii.eqb t "T" && field_in [h1; h2] 0 23
      && Ascii.eqb c1 ":" && field_in [i1; i2] 0 59
      && Ascii.eqb c2 ":" && field_in [s1; s2] 0 59
      && Ascii.eqb p "." && field_in [f1; f2; f3] 0 999
      && Ascii.eqb z "Z"
  | _ => false
  end.

(** A complete date-time in UTC: [YYYY-MM-DDTHH:mm:ss.sssZ], or the same
    with an expanded year [+YYYYYY] or [-YYYYYY]. *)
Definition is_iso8601 (s : string) : bool :=
  match list_ascii_of_string s with
  | y1 :: y2 :: y3 :: y4 :: y5 :: y6 :: y7 :: rest =>
      if Ascii.eqb y1 "+" || Ascii.eqb y1 "-" then
        field_in [y2; y3; y4; y5; y6; y7] 0 999999 && iso8601_rest rest
      else
        field_in [y1; y2; y3; y4] 0 9999 && iso8601_rest (y5 :: y6 :: y7 :: rest)
  | _ => false
  end.

End Date.

(** ** Requests and responses *)

(** What the handler reads of a request: its method, the path of its URL
    and what [request.json()] settles to (the parsed body, or the error
    thrown for a body that is not JSON). *)
Record Request : Type := mkRequest {
  method : string;
  pathname : string;
  json : outcome value
}.

(** A response body: none, a text, or the text [JSON.stringify v]. *)
Inductive body_init : Type :=
| BodyNull
| BodyText (s : string)
| BodyJSON (v : value).

Record Response : Type := mkResponse {
  status : Z;
  headers : gmap string string;
  body : body_init
}.

(** [new Response(body, { status, headers })]; the status defaults to 200. *)
Definition new_Response (b : body_init) (st : option Z)
    (hs : gmap string string) : Response :=
  {| status := default 200 st; headers := hs; body := b |}.

(** Header names do not distinguish upper and lower case. *)
Definition ascii_lower (c : ascii) : ascii :=
  let n := nat_of_ascii c in
  if (65 <=? n)%nat && (n <=? 90)%nat then ascii_of_nat (n + 32) else c.

Fixpoint lower (s : string) : string :=
  match s with
  | EmptyString => EmptyString
  | String c s' => String (ascii_lower c) (lower s')
  end.

Definition same_header_name (a b : string) : bool :=
  String.eqb (lower a) (lower b).
Arguments same_header_name : simpl never.

(** [headers.set(name, value)]: a header of that name, in whatever case it
    was written, is replaced. *)
Definition Headers_set (name value : string) (hs : gmap string string)
    : gmap string string :=
  <[name := value]> (filter (fun kv => same_header_name kv.1 name = false) hs).

Definition setCorsHeaders (response : Response) : Response :=
  let hs := headers response in
  let hs := Headers_set "Access-Control-Allow-Origin" "*" hs in
  let hs := Headers_set "Access-Control-Allow-Methods" "GET, POST, OPTIONS" hs in
  let hs :=
    Headers_set "Access-Control-Allow-Headers" "Content-Type, Authorization" hs in
  {| status := status response; headers := hs; body := body response |}.

(** The destructuring [const { query, variables, operationName } = v]:
    it throws on [null] and [undefined]. *)
Definition destructure3 (v : value) (k1 k2 k3 : string)
    : M (value * value * value) :=
  match v with
  | VUndefined =>
      throw (mkExn TypeError
        ("Cannot destructure property '" +:+ k1
         +:+ "' of '(intermediate value)' as it is undefined."))
  | VNull =>
      throw (mkExn TypeError
        ("Cannot destructure property '" +:+ k1
         +:+ "' of '(intermediate value)' as it is null."))
  | VObj fs => ret (obj_get fs k1, obj_get fs k2, obj_get fs k3)
  | _ => ret (VUndefined, VUndefined, VUndefined)
  end.

(** Settle an awaited promise. *)
Definition await {A} (r : outcome A) : M A := fun log => (r, log).

(** ** The resolvers *)

(** The arguments object the GraphQL engine hands to [chat], destructured
    into its seven properties; a property that is not there reads as
    [undefined]. *)
Record ChatArgs : Type := mkChatArgs {
  messages : value;
  model : value;
  temperature : value;
  max_tokens : value;
  top_p : value;
  frequency_penalty : value;
  presence_penalty : value
}.

(** The context value [{ env }]; [env] holds the worker's bindings. *)
Record Context : Type := mkContext { env : obj }.

(** Lines 76-92 of [chat]: the request parameters sent upstream. *)
Definition requestParams_of (a : ChatArgs) : obj :=
  let requestParams :=
    [ ("model", model a);
      ("messages", messages a);
      ("temperature", temperature a);
      ("max_tokens", max_tokens a) ] in
  let requestParams :=
    if negb (is_undefined (top_p a)) && negb (strict_eq_num (top_p a) num_1_0)
    then obj_set requestParams "top_p" (top_p a)
    else requestParams in
  let requestParams :=
    if negb (is_undefined (frequency_penalty a))
       && negb (strict_eq_num (frequency_penalty a) num_0_0)
    then obj_set requestParams "frequency_penalty" (frequency_penalty a)
    else requestParams in
  let requestParams :=
    if negb (is_undefined (presence_penalty a))
       && negb (strict_eq_num (presence_penalty a) num_0_0)
    then obj_set requestParams "presence_penalty" (presence_penalty a)
    else requestParams in
  requestParams.

(** The root value handed to the engine: one function per operation. *)
Record Resolvers : Type := mkResolvers {
  r_health : value -> Context -> M value;
  r_chat : ChatArgs -> Context -> M value
}.

(** The arguments of the engine's [graphql] call; the schema is the fixed
    one the source builds. *)
Record GraphQLArgs : Type := mkGraphQLArgs {
  source : value;
  variableValues : value;
  operationName : value;
  rootValue : Resolvers;
  contextValue : Context
}.

Definition content_type (t : string) : gmap string string :=
  {[ "Content-Type" := t ]}.

(** The default response's description of the endpoints. *)
Definition endpoints_description : value :=
  VObj [ ("message", VStr "GraphQL OpenAI Service");
         ("endpoints",
          VObj [ ("graphql", VStr "/graphql");
                 ("health", VStr "/health") ]) ].

(** The error envelope of the dispatch layer's [catch]. *)
Definition error_envelope (error : exn) : value :=
  VObj [ ("errors", VArr [ VObj [ ("message", VStr (exn_message error)) ] ]) ].

(** ** Sample data *)

Module Examples.

Definition num_0_7 : spec_float := S754_finite false 6305039478318694 (-53).
Definition num_1000 : spec_float := S754_finite false 8796093022208000 (-43).
Definition num_9 : spec_float := S754_finite false 5066549580791808 (-49).
Definition num_12 : spec_float := S754_finite false 6755399441055744 (-49).
Definition num_21 : spec_float := S754_finite false 5910974510923776 (-48).
Definition num_created : spec_float := S754_finite false 7130316800000000 (-22).

Definition hello : value :=
  VObj [ ("role", VStr "user"); ("content", VStr "Hello!") ].

Definition system_prompt : value :=
  VObj [ ("role", VStr "system"); ("content", VStr "Be brief.") ].

(** The arguments after the schema's defaults have been applied. *)
Definition args_default : ChatArgs :=
  {| messages := VArr [system_prompt; hello];
     model := VStr "gpt-3.5-turbo";
     temperature := VNum num_0_7;
     max_tokens := VNum num_1000;
     top_p := VNum num_1_0;
     frequency_penalty := VNum num_0_0;
     presence_penalty := VNum num_0_0 |}.

Definition args_top_p_0_9 : ChatArgs :=
  {| messages := VArr [hello];
     model := VStr "gpt-4";
     temperature := VNum num_0_7;
     max_tokens := VNum num_1000;
     top_p := VNum num_0_9;
     frequency_penalty := VNum num_0_1;
     presence_penalty := VNum num_neg_0 |}.

Definition ctx_with_key : Context :=
  {| env := [ ("OPENAI_API_KEY", VStr "sk-test") ] |}.

Definition ctx_without_key : Context := {| env := [] |}.

Definition reply : value :=
  VObj [ ("role", VStr "assistant"); ("content", VStr "Hi there.") ].

Definition completion_with_usage : value :=
  VObj [ ("id", VStr "chatcmpl-1");
         ("object", VStr "chat.completion");
         ("created", VNum num_created);
         ("model", VStr "gpt-3.5-turbo-0125");
         ("choices",
          VArr [ VObj [ ("index", VNum num_0_0);
                        ("message", reply);
                        ("finish_reason", VStr "stop") ] ]);
         ("usage",
          VObj [ ("prompt_tokens", VNum num_9);
                 ("completion_tokens", VNum num_12);
                 ("total_tokens", VNum num_21) ]) ].

Definition completion_without_usage : value :=
  VObj [ ("id", VStr "chatcmpl-2");
         ("object", VStr "chat.completion");
         ("created", VNum num_created);
         ("model", VStr "gpt-4");
         ("choices", VArr [ VObj [ ("message", reply) ] ]) ].

Definition completion_empty_choices : value :=
  VObj [ ("id", VStr "chatcmpl-3"); ("choices", VArr []) ].

Definition completion_no_choices : value :=
  VObj [ ("id", VStr "chatcmpl-4") ].

(** SDK stand-ins: the client carries nothing, construction succeeds. *)
Definition sdk_new (options : value) : outcome unit := Normal tt.

Definition sdk_returns (completion : value) (openai : unit) (params : value)
    : outcome value := Normal completion.

Definition sdk_throws (e : exn) (openai : unit) (params : value)
    : outcome value := Throw e.

Definition rate_limited : exn :=
  mkExn (APIErrorSubclass "RateLimitError") "429 You exceeded your current quota".

(** Engine stand-ins: one that settles to a fixed envelope, one that
    throws, and one that runs the [chat] resolver of its root value and
    reports what the resolver throws inside the envelope. *)
Definition engine_returns (result : value) (a : GraphQLArgs) : M value :=
  ret result.

Definition engine_throws (e : exn) (a : GraphQLArgs) : M value := throw e.

Definition engine_runs_chat (args : ChatArgs) (a : GraphQLArgs) : M value :=
  try_catch
    (let* v := r_chat (rootValue a) args (contextValue a) in
     ret (VObj [ ("data", VObj [ ("chat", v) ]) ]))
    (fun e =>
       ret (VObj [ ("errors", VArr [ VObj [ ("message", VStr (exn_message e)) ] ]);
                   ("data", VNull) ])).

Definition bad_variables : exn :=
  mkExn Error "Variables must be provided as an Object where each property is a variable value.".

Definition bad_json : exn :=
  mkExn SyntaxError "Unexpected token h in JSON at position 1".

Definition health_query : value :=
  VObj [ ("query", VStr "{ health }") ].

Definition health_result : value :=
  VObj [ ("data", VObj [ ("health", VStr "GraphQL OpenAI Service is running!") ]) ].

Definition chat_query : value :=
  VObj [ ("query", VStr "mutation { chat(messages: []) { id } }") ].

Definition post_graphql (b : outcome value) : Request :=
  {| method := "POST"; pathname := "/graphql"; json := b |}.

Definition get_health : Request :=
  {| method := "GET"; pathname := "/health";
     json := Throw (mkExn SyntaxError "Unexpected end of JSON input") |}.

Definition options_elsewhere : Request :=
  {| method := "OPTIONS"; pathname := "/foo";
     json := Throw (mkExn SyntaxError "Unexpected end of JSON input") |}.

Definition get_root : Request :=
  {| method := "GET"; pathname := "/";
     json := Throw (mkExn SyntaxError "Unexpected end of JSON input") |}.

End Examples.

(** ** The schema

    The type definitions the source hands to [buildSchema], as data: each
    object type with its fields and their types, and the arguments of the
    [chat] mutation with their defaults. *)

Module Schema.

Definition object_types : list (string * list (string * string)) :=
  [ ("Message", [ ("role", "String!"); ("content", "String!") ]);
    ("MessageInput", [ ("role", "String!"); ("content", "String!") ]);
    ("ChatResponse",
     [ ("id", "String!"); ("object", "String!"); ("created", "Int!");
       ("model", "String!"); ("message", "Message!"); ("usage", "Usage") ]);
    ("Usage",
     [ ("prompt_tokens", "Int!"); ("completion_tokens", "Int!");
       ("total_tokens", "Int!") ]);
    ("Query", [ ("health", "String!") ]);
    ("Mutation", [ ("chat", "ChatResponse!") ]) ].

Fixpoint fields_of (types : list (string * list (string * string)))
    (ty : string) : list (string * string) :=
  match types with
  | [] => []
  | (name, fields) :: types' =>
      if String.eqb name ty then fields else fields_of types' ty
  end.

Definition field_names (ty : string) : list string :=
  map fst (fields_of object_types ty).

Record argument : Type := mkArgument {
  arg_name : string;
  arg_type : string;
  arg_default : option value
}.

(** 0.7 is the double 0x3FE6666666666666; 1000 is 1000 * 2^0. *)
Definition chat_arguments : list argument :=
  [ mkArgument "messages" "[MessageInput!]!" None;
    mkArgument "model" "String" (Some (VStr "gpt-3.5-turbo"));
    mkArgument "temperature" "Float"
      (Some (VNum (S754_finite false 6305039478318694 (-53))));
    mkArgument "max_tokens" "Int"
      (Some (VNum (S754_finite false 8796093022208000 (-43))));
    mkArgument "top_p" "Float" (Some (VNum num_1_0));
    mkArgument "frequency_penalty" "Float" (Some (VNum num_0_0));
    mkArgument "presence_penalty" "Float" (Some (VNum num_0_0)) ].

Definition argument_names : list string := map arg_name chat_arguments.

Fixpoint default_in (args : list argument) (k : string) : option value :=
  match args with
  | [] => None
  | a :: args' =>
      if String.eqb (arg_name a) k then arg_default a else default_in args' k
  end.

End Schema.

(** The argument a property of the request parameters stands for. *)
Definition chat_arg (a : ChatArgs) (k : string) : option value :=
  if String.eqb k "model" then Some (model a)
  else if String.eqb k "messages" then Some (messages a)
  else if String.eqb k "temperature" then Some (temperature a)
  else if String.eqb k "max_tokens" then Some (max_tokens a)
  else if String.eqb k "top_p" then Some (top_p a)
  else if String.eqb k "frequency_penalty" then Some (frequency_penalty a)
  else if String.eqb k "presence_penalty" then Some (presence_penalty a)
  else None.

(** A computation whose outcome does not depend on the log and that adds
    nothing to it. *)
Definition effect_free {A} (m : M A) : Prop :=
  exists r, forall log, m log = (r, log).

(** The three headers [setCorsHeaders] sets. *)
Definition cors_headers : gmap string string :=
  {[ "Access-Control-Allow-Origin" := "*";
     "Access-Control-Allow-Methods" := "GET, POST, OPTIONS";
     "Access-Control-Allow-Headers" := "Content-Type, Authorization" ]}.



(** A name that is one of the three, in any case. *)
Definition cors_name (k : string) : bool :=
  same_header_name k "Access-Control-Allow-Origin"
  || same_header_name k "Access-Control-Allow-Methods"
  || same_header_name k "Access-Control-Allow-Headers".

(** More sample data, for the further properties. *)

Module Samples.

Definition args_null_top_p : ChatArgs :=
  {| messages := VArr [Examples.hello];
     model := VStr "gpt-4";
     temperature := VNum Examples.num_0_7;
     max_tokens := VNum Examples.num_1000;
     top_p := VNull;
     frequency_penalty := VNum num_neg_0;
     presence_penalty := VNum S754_nan |}.

(** The advanced example of the README. *)
Definition args_readme : ChatArgs :=
  {| messages := VArr [Examples.hello];
     model := VStr "gpt-4";
     temperature := VNum (S754_finite false 7205759403792794 (-53));
     max_tokens := VNum (S754_finite false 5277655813324800 (-44));
     top_p := VNum num_0_9;
     frequency_penalty := VNum num_0_1;
     presence_penalty := VNum num_0_1 |}.



Definition ctx_other_key : Context :=
  {| env := [ ("OPENAI_API_KEY", VStr "sk-other"); ("STAGE", VStr "dev") ] |}.

Definition missing_credentials : exn :=
  mkExn OpenAIError "The OPENAI_API_KEY environment variable is missing or empty".

Definition sdk_new_fails (options : value) : outcome unit :=
  Throw missing_credentials.

Definition completion_usage_null : value :=
  VObj [ ("id", VStr "chatcmpl-5");
         ("object", VStr "chat.completion");
         ("created", VNum Examples.num_created);
         ("model", VStr "gpt-4");
         ("choices", VArr [ VObj [ ("message", Examples.reply) ] ]);
         ("usage", VNull) ].

Definition completion_two_choices : list (string * value) :=
  [ ("id", VStr "chatcmpl-6");
    ("choices",
     VArr [ VObj [ ("message", Examples.reply) ];
            VObj [ ("message", Examples.hello) ] ]) ].

Definition completion_one_choice : list (string * value) :=
  [ ("id", VStr "chatcmpl-6");
    ("choices", VArr [ VObj [ ("message", Examples.reply) ] ]) ].

Definition completion_no_message : value :=
  VObj [ ("id", VStr "chatcmpl-7");
         ("choices", VArr [ VObj [ ("finish_reason", VStr "length") ] ]) ].

Definition no_body : outcome value :=
  Throw (mkExn SyntaxError "Unexpected end of JSON input").

Definition options_graphql : Request :=
  {| method := "OPTIONS"; pathname := "/graphql"; json := no_body |}.

Definition get_graphql : Request :=
  {| method := "GET"; pathname := "/graphql"; json := no_body |}.

Definition post_health : Request :=
  {| method := "POST"; pathname := "/health";
     json := Normal Examples.health_query |}.

Definition put_graphql : Request :=
  {| method := "PUT"; pathname := "/graphql";
     json := Normal Examples.health_query |}.

Definition delete_root : Request :=
  {| method := "DELETE"; pathname := "/"; json := no_body |}.

End Samples.

Section Worker.

(** The OpenAI SDK: the client type, what [new OpenAI(options)] does and
    what [openai.chat.completions.create(params)] settles to. *)
Variable client : Type.
Variable OpenAI_new : value -> outcome client.
Variable completions_create : client -> value -> outcome value.

Definition new_OpenAI (options : value) : M client :=
  perform (EvNewClient options) (OpenAI_new options).

Definition create (openai : client) (requestParams : value) : M value :=
  perform (EvCreate requestParams) (completions_create openai requestParams).

(** Lines 97-113 of [chat]: the response built from the completion. *)
Definition response_of (completion : value) : M value :=
  let* choices := get_prop completion "choices" in
  let* choice := get_index0 choices in
  let* id := get_prop completion "id" in
  let* object := get_prop completion "object" in
  let* created := get_prop completion "created" in
  let* model' := get_prop completion "model" in
  let* m1 := get_prop choice "message" in
  let* role := get_prop m1 "role" in
  let* m2 := get_prop choice "message" in
  let* content := get_prop m2 "content" in
  let* usage := get_prop completion "usage" in
  let* usage' :=
    (if truthy usage then
       let* u1 := get_prop completion "usage" in
       let* prompt_tokens := get_prop u1 "prompt_tokens" in
       let* u2 := get_prop completion "usage" in
       let* completion_tokens := get_prop u2 "completion_tokens" in
       let* u3 := get_prop completion "usage" in
       let* total_tokens := get_prop u3 "total_tokens" in
       ret (VObj [ ("prompt_tokens", prompt_tokens);
                   ("completion_tokens", completion_tokens);
                   ("total_tokens", total_tokens) ])
     else ret VNull) in
  ret (VObj [ ("id", id);
              ("object", object);
              ("created", created);
              ("model", model');
              ("message", VObj [ ("role", role); ("content", content) ]);
              ("usage", usage') ]).

(** [health: () => 'GraphQL OpenAI Service is running!']. *)
Definition health (args : value) (context : Context) : M value :=
  ret (VStr "GraphQL OpenAI Service is running!").

(** The [chat] resolver. *)
Definition chat (args : ChatArgs) (context : Context) : M value :=
  let env := env context in
  if negb (truthy (obj_get env "OPENAI_API_KEY")) then
    throw (mkExn Error "OpenAI API key is not configured")
  else
    try_catch
      (let* openai := new_OpenAI (VObj [("apiKey", obj_get env "OPENAI_API_KEY")]) in
       let requestParams := requestParams_of args in
       let* completion := create openai (VObj requestParams) in
       response_of completion)
      (fun error =>
         if instanceof_APIError error then
           throw (mkExn Error ("OpenAI API Error: " +:+ exn_message error))
         else
           throw (mkExn Error ("Failed to call OpenAI API: " +:+ exn_message error))).


(** The SDK options [chat] builds from the context, and the error its
    [catch] clause throws for a caught one; both are inline in [chat] and
    named here for the statements below. *)
Definition client_options (context : Context) : value :=
  VObj [("apiKey", obj_get (env context) "OPENAI_API_KEY")].

Definition translated (error : exn) : exn :=
  if instanceof_APIError error then
    mkExn Error ("OpenAI API Error: " +:+ exn_message error)
  else
    mkExn Error ("Failed to call OpenAI API: " +:+ exn_message error).

(** *** The dispatch layer *)

Definition resolvers : Resolvers :=
  {| r_health := health; r_chat := chat |}.

(** The GraphQL engine, the console page and the clock are the worker's
    surroundings: [graphql] runs a request and settles to the result
    envelope or throws, [getGraphQLPlayground] is the static HTML page,
    [Date_now] is the time value [new Date()] holds. *)
Variable graphql : GraphQLArgs -> M value.
Variable getGraphQLPlayground : string.
Variable Date_now : Z.

(** The worker's [fetch] handler. *)
Definition fetch (request : Request) (env : obj) : M Response :=
  let fallthrough : M Response :=
    if String.eqb (pathname request) "/health" then
      ret (setCorsHeaders (new_Response
        (BodyJSON (VObj [ ("status", VStr "ok");
                          ("timestamp", VStr (Date.toISOString Date_now)) ]))
        None (content_type "application/json")))
    else
      ret (setCorsHeaders (new_Response
        (BodyJSON endpoints_description)
        None (content_type "application/json"))) in
  if String.eqb (method request) "OPTIONS" then
    ret (setCorsHeaders (new_Response BodyNull (Some 200) ∅))
  else if String.eqb (pathname request) "/graphql" then
    if String.eqb (method request) "GET" then
      ret (setCorsHeaders (new_Response (BodyText getGraphQLPlayground)
        None (content_type "text/html")))
    else if String.eqb (method request) "POST" then
      try_catch
        (let* parsed := await (json request) in
         let* qvo := destructure3 parsed "query" "variables" "operationName" in
         let '(query, variables, operationName) := qvo in
         let* result :=
           graphql {| source := query;
                      variableValues := variables;
                      operationName := operationName;
                      rootValue := resolvers;
                      contextValue := {| env := env |} |} in
         ret (setCorsHeaders (new_Response (BodyJSON result)
           None (content_type "application/json"))))
        (fun error =>
           ret (setCorsHeaders (new_Response
             (BodyJSON (error_envelope error))
             (Some 400) (content_type "application/json"))))
    else fallthrough
  else fallthrough.

(** * Properties *)

(** ** The timestamp *)

Lemma civil_of_doe_range (doe : Z) :
  0 <= doe < 146097 ->
  let '(yoe, m, d) := Date.civil_of_doe doe in
  0 <= yoe <= 399 /\ 1 <= m <= 12 /\ 1 <= d <= 31.
Proof.
  intros Hdoe. unfold Date.civil_of_doe.
  set (yoe := (doe - doe / 1460 + doe / 36524 - doe / 146096) / 365).
  set (doy := doe - (365 * yoe + yoe / 4 - yoe / 100)).
  set (mp := (5 * doy + 2) / 153).
  assert (Hy : 0 <= yoe <= 399 /\ 0 <= doy <= 365).
  { subst doy yoe. Z.div_mod_to_equations. lia. }
  assert (Hm : 0 <= mp <= 11 /\ 1 <= doy - (153 * mp + 2) / 5 + 1 <= 31).
  { destruct Hy as [_ Hdoy]. subst mp. clearbody doy.
    Z.div_mod_to_equations. lia. }
  destruct (Z.ltb_spec mp 10); lia.
Qed.

Lemma Day_range (t : Z) :
  Date.time_value t -> -100000000 <= Date.Day t <= 100000000.
Proof.
  unfold Date.time_value, Date.Day, Date.msPerDay. intros Ht.
  Z.div_mod_to_equations. lia.
Qed.

Lemma civil_from_days_range (day : Z) :
  -100000000 <= day <= 100000000 ->
  let '(y, m, d) := Date.civil_from_days day in
  -999999 <= y <= 999999 /\ 1 <= m <= 12 /\ 1 <= d <= 31.
Proof.
  intros Hday. unfold Date.civil_from_days.
  pose proof (civil_of_doe_range ((day + 719468) mod 146097)) as Hc.
  destruct (Date.civil_of_doe ((day + 719468) mod 146097)) as [[yoe m] d].
  assert (Hdoe : 0 <= (day + 719468) mod 146097 < 146097)
    by (apply Z.mod_pos_bound; lia).
  specialize (Hc Hdoe).
  assert (He : -700 <= (day + 719468) / 146097 <= 700)
    by (Z.div_mod_to_equations; lia).
  destruct (Z.leb_spec m 2); lia.
Qed.

Lemma date_fields_range (t : Z) :
  Date.time_value t ->
  -999999 <= Date.YearFromTime t <= 999999
  /\ 1 <= Date.MonthFromTime t + 1 <= 12
  /\ 1 <= Date.DateFromTime t <= 31.
Proof.
  intros Ht. unfold Date.YearFromTime, Date.MonthFromTime, Date.DateFromTime.
  pose proof (civil_from_days_range _ (Day_range t Ht)) as Hc.
  destruct (Date.civil_from_days (Date.Day t)) as [[y m] d].
  cbn [fst snd]. lia.
Qed.

Lemma time_fields_range (t : Z) :
  0 <= Date.HourFromTime t <= 23
  /\ 0 <= Date.MinFromTime t <= 59
  /\ 0 <= Date.SecFromTime t <= 59
  /\ 0 <= Date.msFromTime t <= 999.
Proof.
  unfold Date.HourFromTime, Date.MinFromTime, Date.SecFromTime, Date.msFromTime.
  Z.div_mod_to_equations. lia.
Qed.

(** The ten digit characters, by running through them. *)
Lemma digit_of_nat (k : nat) :
  (k < 10)%nat ->
  Date.digit_val (Date.digit (Z.of_nat k)) = Some (Z.of_nat k)
  /\ Ascii.eqb (Date.digit (Z.of_nat k)) "+"
     || Ascii.eqb (Date.digit (Z.of_nat k)) "-" = false.
Proof.
  intros Hk.
  do 10 (destruct k as [|k]; [split; reflexivity|]).
  lia.
Qed.

Lemma digit_val_digit (n : Z) :
  0 <= n <= 9 -> Date.digit_val (Date.digit n) = Some n.
Proof.
  intros Hn. rewrite <- (Z2Nat.id n) by lia.
  apply digit_of_nat. lia.
Qed.

Lemma digit_not_sign (n : Z) :
  0 <= n <= 9 ->
  Ascii.eqb (Date.digit n) "+" || Ascii.eqb (Date.digit n) "-" = false.
Proof.
  intros Hn. rewrite <- (Z2Nat.id n) by lia.
  apply digit_of_nat. lia.
Qed.

Lemma list_ascii_of_string_app (s1 s2 : string) :
  list_ascii_of_string (s1 +:+ s2)
  = (list_ascii_of_string s1 ++ list_ascii_of_string s2)%list.
Proof.
  induction s1 as [|c s1 IH]; [reflexivity|].
  change (String c s1 +:+ s2) with (String c (s1 +:+ s2)).
  cbn [list_ascii_of_string app]. f_equal. exact IH.
Qed.

(** The digits that [pad] writes read back as the number, when it fits. *)
Lemma digits_val_pad (w : nat) :
  forall (n acc : Z) (rest : list ascii),
    0 <= n ->
    Date.digits_val acc (list_ascii_of_string (Date.pad w n) ++ rest)
    = Date.digits_val (acc * 10 ^ Z.of_nat w + n mod 10 ^ Z.of_nat w) rest.
Proof.
  induction w as [|w IH]; intros n acc rest Hn.
  - cbn. f_equal. rewrite Z.mod_1_r. lia.
  - cbn [Date.pad].
    rewrite list_ascii_of_string_app, <- app_assoc.
    rewrite IH by (apply Z.div_pos; lia).
    cbn [list_ascii_of_string app Date.digits_val].
    rewrite digit_val_digit by (pose proof (Z.mod_pos_bound n 10); lia).
    f_equal.
    rewrite Nat2Z.inj_succ, Z.pow_succ_r by lia.
    rewrite (Z.rem_mul_r n 10 (10 ^ Z.of_nat w)) by lia.
    lia.
Qed.

Lemma field_in_pad (w : nat) (n lo hi : Z) :
  0 <= n < 10 ^ Z.of_nat w -> lo <= n <= hi ->
  Date.field_in (list_ascii_of_string (Date.pad w n)) lo hi = true.
Proof.
  intros Hn Hr. unfold Date.field_in.
  pose proof (digits_val_pad w n 0 [] (proj1 Hn)) as Hd.
  rewrite app_nil_r in Hd. rewrite Hd.
  cbn [Date.digits_val]. rewrite Z.mod_small by lia.
  apply andb_true_iff. split; apply Z.leb_le; lia.
Qed.

Ltac iso_cells :=
  cbv beta iota zeta delta
    [Date.is_iso8601 Date.iso8601_rest Date.pad String.append
     list_ascii_of_string Nat.add].

(** Every time value a [Date] can hold prints as an ISO 8601 date-time. *)
Lemma toISOString_valid (t : Z) :
  Date.time_value t -> Date.is_iso8601 (Date.toISOString t) = true.
Proof.
  intros Ht.
  destruct (date_fields_range t Ht) as (Hy & Hmo & Hd).
  destruct (time_fields_range t) as (Hh & Hmi & Hs & Hms).
  unfold Date.toISOString.
  generalize dependent (Date.YearFromTime t). intros y Hy.
  generalize dependent (Date.MonthFromTime t + 1). intros mo Hmo.
  generalize dependent (Date.DateFromTime t). intros d Hd.
  generalize dependent (Date.HourFromTime t). intros h Hh.
  generalize dependent (Date.MinFromTime t). intros mi Hmi.
  generalize dependent (Date.SecFromTime t). intros sec Hs.
  generalize dependent (Date.msFromTime t). intros ms Hms.
  pose proof (fun n lo hi => field_in_pad 2 n lo hi) as F2.
  pose proof (fun n lo hi => field_in_pad 3 n lo hi) as F3.
  pose proof (fun n lo hi => field_in_pad 4 n lo hi) as F4.
  pose proof (fun n lo hi => field_in_pad 6 n lo hi) as F6.
  change (Z.of_nat 2) with 2 in F2. change (Z.of_nat 3) with 3 in F3.
  change (Z.of_nat 4) with 4 in F4. change (Z.of_nat 6) with 6 in F6.
  revert F2 F3 F4 F6. iso_cells. intros F2 F3 F4 F6.
  unfold Date.year_string.
  destruct ((0 <=? y) && (y <=? 9999)) eqn:Hfour.
  - apply andb_true_iff in Hfour as [H0 H9].
    apply Z.leb_le in H0, H9.
    iso_cells.
    rewrite digit_not_sign by (Z.div_mod_to_equations; lia).
    rewrite F4, !F2, F3 by lia.
    reflexivity.
  - assert (Hout : y < 0 \/ 9999 < y).
    { apply andb_false_iff in Hfour as [H|H]; apply Z.leb_gt in H; lia. }
    destruct (Z.ltb_spec y 0) as [Hneg|Hpos]; iso_cells;
      rewrite F6, !F2, F3 by lia; reflexivity.
Qed.

(** ** Computations without SDK operations *)

Lemma silent_ret {A} (a : A) : silent (ret a).
Proof. intros log. reflexivity. Qed.

Lemma silent_throw {A} (e : exn) : silent (@throw A e).
Proof. intros log. reflexivity. Qed.

Lemma silent_bind {A B} (m : M A) (k : A -> M B) :
  silent m -> (forall a, silent (k a)) -> silent (bind m k).
Proof.
  intros Hm Hk log. unfold bind.
  specialize (Hm log). destruct (m log) as [[a|e] log']; cbn in Hm; subst log'.
  - apply Hk.
  - reflexivity.
Qed.

Lemma silent_get_prop (v : value) (k : string) : silent (get_prop v k).
Proof. destruct v; intros log; reflexivity. Qed.

Lemma silent_get_index0 (v : value) : silent (get_index0 v).
Proof. destruct v; intros log; reflexivity. Qed.

Create HintDb silent.
#[local] Hint Resolve silent_ret silent_throw silent_get_prop
  silent_get_index0 : silent.

Lemma silent_response_of (completion : value) : silent (response_of completion).
Proof.
  unfold response_of.
  repeat (apply silent_bind; [auto with silent|intros ?]);
    try destruct (truthy _);
    repeat (apply silent_bind; [auto with silent|intros ?]);
    auto with silent.
Qed.

(** ** The request parameters *)

Lemma requestParams_fixed_fields (a : ChatArgs) :
  obj_lookup (requestParams_of a) "model" = Some (model a)
  /\ obj_lookup (requestParams_of a) "messages" = Some (messages a)
  /\ obj_lookup (requestParams_of a) "temperature" = Some (temperature a)
  /\ obj_lookup (requestParams_of a) "max_tokens" = Some (max_tokens a).
Proof.
  unfold requestParams_of.
  destruct (negb (is_undefined (top_p a)) && negb (strict_eq_num (top_p a) num_1_0));
    destruct (negb (is_undefined (frequency_penalty a))
              && negb (strict_eq_num (frequency_penalty a) num_0_0));
    destruct (negb (is_undefined (presence_penalty a))
              && negb (strict_eq_num (presence_penalty a) num_0_0));
    repeat split; reflexivity.
Qed.

(** Each optional parameter is in the payload exactly when the argument is
    neither [undefined] nor strictly equal to its default, and then with the
    argument's value. *)
Lemma requestParams_optional_fields (a : ChatArgs) :
  obj_lookup (requestParams_of a) "top_p"
  = (if negb (is_undefined (top_p a)) && negb (strict_eq_num (top_p a) num_1_0)
     then Some (top_p a) else None)
  /\ obj_lookup (requestParams_of a) "frequency_penalty"
    = (if negb (is_undefined (frequency_penalty a))
          && negb (strict_eq_num (frequency_penalty a) num_0_0)
       then Some (frequency_penalty a) else None)
  /\ obj_lookup (requestParams_of a) "presence_penalty"
    = (if negb (is_undefined (presence_penalty a))
          && negb (strict_eq_num (presence_penalty a) num_0_0)
       then Some (presence_penalty a) else None).
Proof.
  unfold requestParams_of.
  destruct (negb (is_undefined (top_p a)) && negb (strict_eq_num (top_p a) num_1_0));
    destruct (negb (is_undefined (frequency_penalty a))
              && negb (strict_eq_num (frequency_penalty a) num_0_0));
    destruct (negb (is_undefined (presence_penalty a))
              && negb (strict_eq_num (presence_penalty a) num_0_0));
    repeat split; reflexivity.
Qed.

(** ** The chat resolver *)

(** With a credential and a client, [chat] sends exactly one request, with
    the parameters of [requestParams_of], and its result is the mapped
    completion or the translated error. *)
Lemma chat_reaches_upstream (args : ChatArgs) (context : Context)
    (openai : client) (log : list event) :
  truthy (obj_get (env context) "OPENAI_API_KEY") = true ->
  OpenAI_new (client_options context) = Normal openai ->
  let params := VObj (requestParams_of args) in
  let log' := (log ++ [EvNewClient (client_options context); EvCreate params])%list in
  chat args context log
  = (match completions_create openai params with
     | Normal completion =>
         match fst (response_of completion log') with
         | Normal v => Normal v
         | Throw e => Throw (translated e)
         end
     | Throw e => Throw (translated e)
     end, log').
Proof.
  intros Hkey Hnew params log'.
  unfold chat, try_catch, bind, new_OpenAI, create, perform.
  fold (client_options context). rewrite Hkey, Hnew. cbn [negb].
  fold params. rewrite <- app_assoc. cbn [app]. fold log'.
  destruct (completions_create openai params) as [completion|e].
  - pose proof (silent_response_of completion log') as Hs.
    destruct (response_of completion log') as [[v|e] l]; cbn in Hs; subst l.
    + reflexivity.
    + unfold translated, throw. cbn [fst].
      destruct (instanceof_APIError e); reflexivity.
  - unfold translated, throw. destruct (instanceof_APIError e); reflexivity.
Qed.

(** C1: when [chat] reaches the upstream call, the request parameters it
    sends hold [model], [messages], [temperature] and [max_tokens] whatever
    the arguments; [top_p], [frequency_penalty] and [presence_penalty] are
    there only if the argument is not strictly equal to its default (1.0,
    0.0, 0.0).  An argument left out or given as its default is omitted, and
    [top_p = 0.9] is sent as [top_p: 0.9]; each of the three, when it is
    given and is not its default, is sent with the value given. *)
Theorem chat_payload_fields (args : ChatArgs) (context : Context)
    (openai : client) (log : list event) :
  truthy (obj_get (env context) "OPENAI_API_KEY") = true ->
  OpenAI_new (client_options context) = Normal openai ->
  let p := requestParams_of args in
  (exists r,
     chat args context log
     = (r, (log ++ [EvNewClient (client_options context); EvCreate (VObj p)])%list))
  /\ (obj_lookup p "model" = Some (model args)
      /\ obj_lookup p "messages" = Some (messages args)
      /\ obj_lookup p "temperature" = Some (temperature args)
      /\ obj_lookup p "max_tokens" = Some (max_tokens args))
  /\ (obj_lookup p "top_p" <> None -> strict_eq_num (top_p args) num_1_0 = false)
  /\ (obj_lookup p "frequency_penalty" <> None ->
      strict_eq_num (frequency_penalty args) num_0_0 = false)
  /\ (obj_lookup p "presence_penalty" <> None ->
      strict_eq_num (presence_penalty args) num_0_0 = false)
  /\ (top_p args = VUndefined \/ top_p args = VNum num_1_0 ->
      obj_lookup p "top_p" = None)
  /\ (frequency_penalty args = VUndefined \/ frequency_penalty args = VNum num_0_0 ->
      obj_lookup p "frequency_penalty" = None)
  /\ (presence_penalty args = VUndefined \/ presence_penalty args = VNum num_0_0 ->
      obj_lookup p "presence_penalty" = None)
  /\ (top_p args = VNum num_0_9 -> obj_lookup p "top_p" = Some (VNum num_0_9))
  /\ (top_p args <> VUndefined -> strict_eq_num (top_p args) num_1_0 = false ->
      obj_lookup p "top_p" = Some (top_p args))
  /\ (frequency_penalty args <> VUndefined ->
      strict_eq_num (frequency_penalty args) num_0_0 = false ->
      obj_lookup p "frequency_penalty" = Some (frequency_penalty args))
  /\ (presence_penalty args <> VUndefined ->
      strict_eq_num (presence_penalty args) num_0_0 = false ->
      obj_lookup p "presence_penalty" = Some (presence_penalty args)).
Proof.
  intros Hkey Hnew p.
  destruct (requestParams_optional_fields args) as (Htp & Hfp & Hpp).
  fold p in Htp, Hfp, Hpp.
  split; [|split; [exact (requestParams_fixed_fields args)|]].
  { eexists. exact (chat_reaches_upstream args context openai log Hkey Hnew). }
  repeat split.
  - rewrite Htp. destruct (is_undefined (top_p args)); cbn [negb andb]; [congruence|].
    destruct (strict_eq_num (top_p args) num_1_0); cbn [negb]; congruence.
  - rewrite Hfp.
    destruct (is_undefined (frequency_penalty args)); cbn [negb andb]; [congruence|].
    destruct (strict_eq_num (frequency_penalty args) num_0_0); cbn [negb]; congruence.
  - rewrite Hpp.
    destruct (is_undefined (presence_penalty args)); cbn [negb andb]; [congruence|].
    destruct (strict_eq_num (presence_penalty args) num_0_0); cbn [negb]; congruence.
  - rewrite Htp. intros [->| ->]; reflexivity.
  - rewrite Hfp. intros [->| ->]; reflexivity.
  - rewrite Hpp. intros [->| ->]; reflexivity.
  - rewrite Htp. intros ->. reflexivity.
  - rewrite Htp. intros Hdef ->. destruct (top_p args); try reflexivity. congruence.
  - rewrite Hfp. intros Hdef ->.
    destruct (frequency_penalty args); try reflexivity. congruence.
  - rewrite Hpp. intros Hdef ->.
    destruct (presence_penalty args); try reflexivity. congruence.
Qed.

(** C9: the [messages] sent upstream are the list [chat] was given: the
    same elements in the same order. *)
Theorem chat_messages_preserved (args : ChatArgs) (context : Context)
    (openai : client) (log : list event) (ms : list value) :
  truthy (obj_get (env context) "OPENAI_API_KEY") = true ->
  OpenAI_new (client_options context) = Normal openai ->
  messages args = VArr ms ->
  ms <> [] ->
  exists r p,
    chat args context log
    = (r, (log ++ [EvNewClient (client_options context); EvCreate (VObj p)])%list)
    /\ obj_lookup p "messages" = Some (VArr ms).
Proof.
  intros Hkey Hnew Hms _.
  eexists. exists (requestParams_of args). split.
  - exact (chat_reaches_upstream args context openai log Hkey Hnew).
  - rewrite <- Hms. apply requestParams_fixed_fields.
Qed.


(** C4: without a credential [chat] throws an error whose message contains
    [API key], and no SDK operation has been performed. *)
Theorem chat_missing_credential (args : ChatArgs) (context : Context)
    (log : list event) :
  truthy (obj_get (env context) "OPENAI_API_KEY") = false ->
  exists e,
    chat args context log = (Throw e, log)
    /\ exn_message e = "OpenAI API key is not configured"
    /\ String.index 0 "API key" (exn_message e) = Some 7%nat.
Proof.
  intros Hkey. exists (mkExn Error "OpenAI API key is not configured").
  split; [|split; reflexivity].
  unfold chat. rewrite Hkey. reflexivity.
Qed.

(** C8: [health] returns the same fixed string for every argument, context
    and log, performs nothing and never throws. *)
Theorem health_fixed (args : value) (context : Context) (log : list event) :
  health args context log
  = (Normal (VStr "GraphQL OpenAI Service is running!"), log).
Proof. reflexivity. Qed.

(** C3: when the upstream call succeeds with a completion of the documented
    shape, the result takes [id], [object], [created] and [model] from the
    completion unchanged, [message] is the [role] and [content] of the first
    choice's message, and [usage] is the three token counts of the upstream
    usage when there is one, and [null] when the completion has none. *)
Theorem chat_success_mapping (args : ChatArgs) (context : Context)
    (openai : client) (log : list event)
    (c ch m : obj) (others : list value) :
  truthy (obj_get (env context) "OPENAI_API_KEY") = true ->
  OpenAI_new (client_options context) = Normal openai ->
  completions_create openai (VObj (requestParams_of args)) = Normal (VObj c) ->
  obj_get c "choices" = VArr (VObj ch :: others) ->
  obj_get ch "message" = VObj m ->
  let out usage :=
    VObj [ ("id", obj_get c "id");
           ("object", obj_get c "object");
           ("created", obj_get c "created");
           ("model", obj_get c "model");
           ("message", VObj [ ("role", obj_get m "role");
                              ("content", obj_get m "content") ]);
           ("usage", usage) ] in
  exists log',
    (forall u, obj_get c "usage" = VObj u ->
       chat args context log
       = (Normal (out (VObj [ ("prompt_tokens", obj_get u "prompt_tokens");
                              ("completion_tokens", obj_get u "completion_tokens");
                              ("total_tokens", obj_get u "total_tokens") ])),
          log'))
    /\ (obj_lookup c "usage" = None ->
        chat args context log = (Normal (out VNull), log')).
Proof.
  intros Hkey Hnew Hok Hchoices Hmessage out.
  pose proof (chat_reaches_upstream args context openai log Hkey Hnew) as Hchat.
  cbv zeta in Hchat. rewrite Hok in Hchat.
  eexists. split.
  - intros u Husage. rewrite Hchat. f_equal.
    unfold response_of, bind, get_prop, get_index0, ret.
    rewrite Hchoices, Hmessage, Husage. reflexivity.
  - intros Hnone. rewrite Hchat. f_equal.
    assert (Husage : obj_get c "usage" = VUndefined)
      by (unfold obj_get; rewrite Hnone; reflexivity).
    unfold response_of, bind, get_prop, get_index0, ret.
    rewrite Hchoices, Hmessage, Husage. reflexivity.
Qed.

(** C10: when the upstream call succeeds but the completion has no
    [choices], or an empty array of them, [chat] returns no response: it
    throws an [Error] whose message starts with
    [Failed to call OpenAI API: ]. *)
Theorem chat_no_choices (args : ChatArgs) (context : Context)
    (openai : client) (log : list event) (c : obj) :
  truthy (obj_get (env context) "OPENAI_API_KEY") = true ->
  OpenAI_new (client_options context) = Normal openai ->
  completions_create openai (VObj (requestParams_of args)) = Normal (VObj c) ->
  obj_lookup c "choices" = None \/ obj_lookup c "choices" = Some (VArr []) ->
  exists msg log',
    chat args context log
    = (Throw (mkExn Error ("Failed to call OpenAI API: " +:+ msg)), log').
Proof.
  intros Hkey Hnew Hok Hchoices.
  pose proof (chat_reaches_upstream args context openai log Hkey Hnew) as Hchat.
  cbv zeta in Hchat. rewrite Hok in Hchat.
  destruct Hchoices as [Hnone|Hempty].
  - exists "Cannot read properties of undefined (reading '0')". eexists.
    rewrite Hchat. f_equal.
    assert (Hget : obj_get c "choices" = VUndefined)
      by (unfold obj_get; rewrite Hnone; reflexivity).
    unfold response_of, bind, get_prop, get_index0, ret.
    rewrite Hget. reflexivity.
  - exists "Cannot read properties of undefined (reading 'message')". eexists.
    rewrite Hchat. f_equal.
    assert (Hget : obj_get c "choices" = VArr [])
      by (unfold obj_get; rewrite Hempty; reflexivity).
    unfold response_of, bind, get_prop, get_index0, ret.
    rewrite Hget. reflexivity.
Qed.

(** ** The dispatch layer *)

Lemma lookup_Headers_set (name value k : string) (hs : gmap string string) :
  Headers_set name value hs !! k
  = if decide (k = name) then Some value
    else if same_header_name k name then None else hs !! k.
Proof.
  unfold Headers_set.
  destruct (decide (k = name)) as [->|Hne].
  - by rewrite lookup_insert_eq.
  - rewrite lookup_insert_ne by done.
    rewrite map_lookup_filter.
    destruct (hs !! k) as [v|]; simpl;
      [|by destruct (same_header_name k name)].
    case_guard as Hg; simpl in *.
    + by rewrite Hg.
    + apply not_false_is_true in Hg. by rewrite Hg.
Qed.

Lemma setCorsHeaders_spec (response : Response) :
  status (setCorsHeaders response) = status response
  /\ body (setCorsHeaders response) = body response
  /\ headers (setCorsHeaders response) !! "Access-Control-Allow-Origin" = Some "*"
  /\ headers (setCorsHeaders response) !! "Access-Control-Allow-Methods"
    = Some "GET, POST, OPTIONS"
  /\ headers (setCorsHeaders response) !! "Access-Control-Allow-Headers"
    = Some "Content-Type, Authorization".
Proof.
  unfold setCorsHeaders. cbn [status body headers].
  rewrite !lookup_Headers_set.
  repeat split; reflexivity.
Qed.

(** Every path through [fetch] ends in [setCorsHeaders]. *)
Lemma fetch_returns_cors (request : Request) (env : obj) (log : list event) :
  exists r log', fetch request env log = (Normal (setCorsHeaders r), log').
Proof.
  unfold fetch.
  destruct (String.eqb (method request) "OPTIONS"); [eexists _, _; reflexivity|].
  destruct (String.eqb (pathname request) "/graphql").
  - destruct (String.eqb (method request) "GET"); [eexists _, _; reflexivity|].
    destruct (String.eqb (method request) "POST").
    + unfold try_catch, bind, await.
      destruct (json request) as [parsed|e]; [|eexists _, _; reflexivity].
      destruct (destructure3 parsed "query" "variables" "operationName" log)
        as [[[[q v] o]|e] log1]; [|eexists _, _; reflexivity].
      destruct (graphql _ log1) as [[result|e] log2]; eexists _, _; reflexivity.
    + destruct (String.eqb (pathname request) "/health"); eexists _, _; reflexivity.
  - destruct (String.eqb (pathname request) "/health"); eexists _, _; reflexivity.
Qed.

(** C7: whatever the request, [fetch] returns a response, and the response
    carries the three CORS headers. *)
Theorem fetch_cors_headers (request : Request) (env : obj) (log : list event) :
  exists r log',
    fetch request env log = (Normal r, log')
    /\ headers r !! "Access-Control-Allow-Origin" = Some "*"
    /\ headers r !! "Access-Control-Allow-Methods" = Some "GET, POST, OPTIONS"
    /\ headers r !! "Access-Control-Allow-Headers"
      = Some "Content-Type, Authorization".
Proof.
  destruct (fetch_returns_cors request env log) as (r & log' & Hfetch).
  exists (setCorsHeaders r), log'. split; [exact Hfetch|].
  apply setCorsHeaders_spec.
Qed.

(** C5: for a POST to [/graphql], a body that is not JSON and an engine that
    throws both give status 400 with the body [{errors: [{message}]}]; a
    result the engine returns, which is where resolver errors are reported,
    gives status 200 with that result as the body. *)
Theorem graphql_post_errors (request : Request) (env : obj) (log : list event) :
  method request = "POST" ->
  pathname request = "/graphql" ->
  let engine_args fs :=
    {| source := obj_get fs "query";
       variableValues := obj_get fs "variables";
       operationName := obj_get fs "operationName";
       rootValue := resolvers;
       contextValue := {| env := env |} |} in
  (forall e, json request = Throw e ->
     exists r, fetch request env log = (Normal r, log)
       /\ status r = 400
       /\ body r = BodyJSON (VObj [ ("errors",
            VArr [ VObj [ ("message", VStr (exn_message e)) ] ]) ]))
  /\ (forall fs e log', json request = Normal (VObj fs) ->
       graphql (engine_args fs) log = (Throw e, log') ->
       exists r, fetch request env log = (Normal r, log')
         /\ status r = 400
         /\ body r = BodyJSON (VObj [ ("errors",
              VArr [ VObj [ ("message", VStr (exn_message e)) ] ]) ]))
  /\ (forall fs result log', json request = Normal (VObj fs) ->
       graphql (engine_args fs) log = (Normal result, log') ->
       exists r, fetch request env log = (Normal r, log')
         /\ status r = 200
         /\ body r = BodyJSON result).
Proof.
  intros Hmethod Hpath engine_args.
  unfold fetch. rewrite Hmethod, Hpath. cbn [String.eqb Ascii.eqb Bool.eqb].
  unfold try_catch, bind, await.
  split; [|split].
  - intros e Hjson. rewrite Hjson. eexists. split; [reflexivity|].
    split; reflexivity.
  - intros fs e log' Hjson Hengine. rewrite Hjson.
    cbn [destructure3 ret]. fold (engine_args fs). rewrite Hengine.
    eexists. split; [reflexivity|]. split; reflexivity.
  - intros fs result log' Hjson Hengine. rewrite Hjson.
    cbn [destructure3 ret]. fold (engine_args fs). rewrite Hengine.
    eexists. split; [reflexivity|]. split; reflexivity.
Qed.

(** C6, with OPTIONS set apart: a GET request to [/health] gets status 200
    and a JSON body whose [status] is [ok] and whose [timestamp] is an ISO
    8601 date-time; a request with a method other than OPTIONS to a path
    other than [/graphql] and [/health] gets the description of the
    endpoints; an OPTIONS request, to any path, gets status 200 and no
    body. *)
Theorem fetch_routing (request : Request) (env : obj) (log : list event) :
  (method request = "GET" -> pathname request = "/health" ->
   Date.time_value Date_now ->
   exists r ts,
     fetch request env log = (Normal r, log)
     /\ status r = 200
     /\ body r = BodyJSON (VObj [ ("status", VStr "ok");
                                  ("timestamp", VStr ts) ])
     /\ Date.is_iso8601 ts = true)
  /\ (method request <> "OPTIONS" ->
      pathname request <> "/graphql" -> pathname request <> "/health" ->
      exists r,
        fetch request env log = (Normal r, log)
        /\ status r = 200
        /\ body r = BodyJSON endpoints_description)
  /\ (method request = "OPTIONS" ->
      exists r,
        fetch request env log = (Normal r, log)
        /\ status r = 200
        /\ body r = BodyNull).
Proof.
  split; [|split].
  - intros Hmethod Hpath Hnow.
    unfold fetch. rewrite Hmethod, Hpath. cbn [String.eqb Ascii.eqb Bool.eqb].
    eexists _, _. split; [reflexivity|]. split; [reflexivity|].
    split; [reflexivity|]. exact (toISOString_valid Date_now Hnow).
  - intros Hmethod Hpath1 Hpath2.
    apply String.eqb_neq in Hmethod, Hpath1, Hpath2.
    unfold fetch. rewrite Hmethod, Hpath1, Hpath2.
    eexists. split; [reflexivity|]. split; reflexivity.
  - intros Hmethod. unfold fetch. rewrite Hmethod.
    cbn [String.eqb Ascii.eqb Bool.eqb].
    eexists. split; [reflexivity|]. split; reflexivity.
Qed.

(** * Further properties *)

(** ** The request parameters *)

Ltac split_optionals a :=
  unfold requestParams_of;
  destruct (negb (is_undefined (top_p a)) && negb (strict_eq_num (top_p a) num_1_0));
  destruct (negb (is_undefined (frequency_penalty a))
            && negb (strict_eq_num (frequency_penalty a) num_0_0));
  destruct (negb (is_undefined (presence_penalty a))
            && negb (strict_eq_num (presence_penalty a) num_0_0));
  cbn [obj_set String.eqb Ascii.eqb Bool.eqb].

(** X1: the request parameters have between four and seven properties, no
    name twice, the four fixed ones first and in the order of the source,
    and every name is an argument of [chat] in the schema. *)
Theorem requestParams_names (a : ChatArgs) :
  NoDup (map fst (requestParams_of a))
  /\ (forall k, k ∈ map fst (requestParams_of a) -> k ∈ Schema.argument_names)
  /\ firstn 4 (map fst (requestParams_of a))
     = ["model"; "messages"; "temperature"; "max_tokens"]
  /\ (4 <= length (requestParams_of a) <= 7)%nat.
Proof.
  split_optionals a;
    (split; [|split; [|split]];
     [ cbn [map fst];
       repeat (constructor;
               [rewrite ?elem_of_cons, elem_of_nil; intuition discriminate|]);
       constructor
     | intros k; cbv [map fst Schema.argument_names Schema.chat_arguments
                      Schema.arg_name];
       rewrite !elem_of_cons, !elem_of_nil; tauto
     | reflexivity
     | cbn [length]; lia ]).
Qed.

(** X2: every property of the request parameters holds the value of the
    argument of that name, as it was given: nothing is converted, clamped
    or validated. *)
Theorem requestParams_values (a : ChatArgs) (k : string) (v : value) :
  obj_lookup (requestParams_of a) k = Some v -> chat_arg a k = Some v.
Proof.
  unfold chat_arg.
  split_optionals a; cbn [obj_lookup];
    repeat match goal with
    | |- context [String.eqb ?x k] =>
        destruct (String.eqb_spec x k) as [<-|?]; [cbn; congruence|]
    end;
    discriminate.
Qed.

(** X3: an optional argument that is given and is not strictly equal to
    its default is forwarded with its own value, [null] included; negative
    zero is strictly equal to the default 0.0 of the two penalties and is
    left out. *)
Theorem requestParams_forwards_given (a : ChatArgs) :
  (top_p a <> VUndefined -> strict_eq_num (top_p a) num_1_0 = false ->
   obj_lookup (requestParams_of a) "top_p" = Some (top_p a))
  /\ (frequency_penalty a <> VUndefined ->
      strict_eq_num (frequency_penalty a) num_0_0 = false ->
      obj_lookup (requestParams_of a) "frequency_penalty"
      = Some (frequency_penalty a))
  /\ (presence_penalty a <> VUndefined ->
      strict_eq_num (presence_penalty a) num_0_0 = false ->
      obj_lookup (requestParams_of a) "presence_penalty"
      = Some (presence_penalty a))
  /\ (frequency_penalty a = VNum num_neg_0 ->
      obj_lookup (requestParams_of a) "frequency_penalty" = None)
  /\ (presence_penalty a = VNum num_neg_0 ->
      obj_lookup (requestParams_of a) "presence_penalty" = None).
Proof.
  destruct (requestParams_optional_fields a) as (Htp & Hfp & Hpp).
  rewrite Htp, Hfp, Hpp.
  repeat split.
  - intros Hdef ->. destruct (top_p a); try reflexivity. congruence.
  - intros Hdef ->. destruct (frequency_penalty a); try reflexivity. congruence.
  - intros Hdef ->. destruct (presence_penalty a); try reflexivity. congruence.
  - intros ->. reflexivity.
  - intros ->. reflexivity.
Qed.

(** ** The chat resolver, case by case *)

Lemma chat_cases (args : ChatArgs) (context : Context) (log : list event) :
  chat args context log
  = if truthy (obj_get (env context) "OPENAI_API_KEY") then
      match OpenAI_new (client_options context) with
      | Normal openai =>
          let params := VObj (requestParams_of args) in
          let log' :=
            (log ++ [EvNewClient (client_options context); EvCreate params])%list in
          (match completions_create openai params with
           | Normal completion =>
               match fst (response_of completion log') with
               | Normal v => Normal v
               | Throw e => Throw (translated e)
               end
           | Throw e => Throw (translated e)
           end, log')
      | Throw e =>
          (Throw (translated e),
           (log ++ [EvNewClient (client_options context)])%list)
      end
    else (Throw (mkExn Error "OpenAI API key is not configured"), log).
Proof.
  destruct (truthy (obj_get (env context) "OPENAI_API_KEY")) eqn:Hkey.
  - destruct (OpenAI_new (client_options context)) as [openai|e] eqn:Hnew.
    + exact (chat_reaches_upstream args context openai log Hkey Hnew).
    + unfold chat, try_catch, bind, new_OpenAI, perform.
      fold (client_options context). rewrite Hkey, Hnew. cbn [negb].
      unfold translated, throw. destruct (instanceof_APIError e); reflexivity.
  - unfold chat. rewrite Hkey. reflexivity.
Qed.

(** X4: when [new OpenAI] throws, [chat] throws the translated error and
    no request has been sent: the constructor call is the only SDK
    operation. *)
Theorem chat_constructor_failure (args : ChatArgs) (context : Context)
    (log : list event) (e : exn) :
  truthy (obj_get (env context) "OPENAI_API_KEY") = true ->
  OpenAI_new (client_options context) = Throw e ->
  chat args context log
  = (Throw (mkExn Error
       ((if instanceof_APIError e then "OpenAI API Error: "
         else "Failed to call OpenAI API: ") +:+ exn_message e)),
     (log ++ [EvNewClient (VObj [("apiKey", obj_get (env context) "OPENAI_API_KEY")])])%list).
Proof.
  intros Hkey Hnew. rewrite chat_cases, Hkey, Hnew.
  unfold translated, client_options.
  destruct (instanceof_APIError e); reflexivity.
Qed.

(** X5: whatever the SDK does, one call of [chat] adds to the log nothing,
    or the constructor call alone, or the constructor call followed by one
    request with the parameters of [requestParams_of]: never a second
    request. *)
Theorem chat_at_most_one_request (args : ChatArgs) (context : Context)
    (log : list event) :
  exists evs,
    snd (chat args context log) = (log ++ evs)%list
    /\ (evs = []
        \/ evs = [EvNewClient (client_options context)]
        \/ evs = [EvNewClient (client_options context);
                  EvCreate (VObj (requestParams_of args))]).
Proof.
  rewrite chat_cases.
  destruct (truthy (obj_get (env context) "OPENAI_API_KEY")).
  - destruct (OpenAI_new (client_options context)) as [openai|e].
    + eexists. split; [reflexivity|]. right. right. reflexivity.
    + eexists. split; [reflexivity|]. right. left. reflexivity.
  - exists []. split; [cbn [snd]; now rewrite app_nil_r|]. left. reflexivity.
Qed.

(** ** What [chat] can return and throw *)

Lemma bind_normal_inv {A B} (m : M A) (k : A -> M B)
    (log l : list event) (b : B) :
  bind m k log = (Normal b, l) ->
  exists a l1, m log = (Normal a, l1) /\ k a l1 = (Normal b, l).
Proof.
  unfold bind. destruct (m log) as [[a|e] l1]; [|discriminate].
  intros Hk. exists a, l1. split; [reflexivity|exact Hk].
Qed.

Lemma response_of_shape (completion v : value) (log l : list event) :
  response_of completion log = (Normal v, l) ->
  exists id object created model' role content usage,
    v = VObj [ ("id", id); ("object", object); ("created", created);
               ("model", model');
               ("message", VObj [ ("role", role); ("content", content) ]);
               ("usage", usage) ]
    /\ (usage = VNull
        \/ exists pt ct tt,
             usage = VObj [ ("prompt_tokens", pt); ("completion_tokens", ct);
                            ("total_tokens", tt) ]).
Proof.
  intros H. unfold response_of in H.
  do 11 (apply bind_normal_inv in H as (? & ? & _ & H)).
  apply bind_normal_inv in H as (usage & l' & Husage & H).
  injection H as <- _.
  do 7 eexists. split; [reflexivity|].
  destruct (truthy _).
  - do 6 (apply bind_normal_inv in Husage as (? & ? & _ & Husage)).
    injection Husage as <- _. right. do 3 eexists. reflexivity.
  - injection Husage as <- _. left. reflexivity.
Qed.

(** X6: a value [chat] returns has exactly the fields the schema declares
    for [ChatResponse], in that order; its [message] those of [Message];
    its [usage] is [null] or has those of [Usage]. *)
Theorem chat_result_fields (args : ChatArgs) (context : Context)
    (log l : list event) (v : value) :
  chat args context log = (Normal v, l) ->
  exists fs mfs,
    v = VObj fs
    /\ map fst fs = Schema.field_names "ChatResponse"
    /\ obj_get fs "message" = VObj mfs
    /\ map fst mfs = Schema.field_names "Message"
    /\ (obj_get fs "usage" = VNull
        \/ exists ufs,
             obj_get fs "usage" = VObj ufs
             /\ map fst ufs = Schema.field_names "Usage").
Proof.
  rewrite chat_cases. intros H.
  destruct (truthy _); [|discriminate].
  destruct (OpenAI_new _) as [openai|e]; [|discriminate].
  cbv zeta in H.
  destruct (completions_create openai _) as [completion|e]; [|discriminate].
  destruct (response_of completion _) as [[v'|e] l'] eqn:Hresp; [|discriminate].
  cbn [fst] in H. injection H as <- _.
  apply response_of_shape in Hresp
    as (id & ob & cr & mo & ro & co & us & -> & Hus).
  do 2 eexists. split; [reflexivity|].
  split; [reflexivity|]. split; [reflexivity|]. split; [reflexivity|].
  destruct Hus as [->|(pt & ct & tt & ->)].
  - left. reflexivity.
  - right. eexists. split; reflexivity.
Qed.

Lemma translated_shape (e : exn) :
  exn_class (translated e) = Error
  /\ ((exists m, exn_message (translated e) = "OpenAI API Error: " +:+ m)
      \/ (exists m, exn_message (translated e) = "Failed to call OpenAI API: " +:+ m)).
Proof.
  unfold translated. destruct (instanceof_APIError e); cbn.
  - split; [reflexivity|]. left. eexists. reflexivity.
  - split; [reflexivity|]. right. eexists. reflexivity.
Qed.

(** X7: an error [chat] throws is always a plain [Error] (a [TypeError]
    or an SDK error never leaves the resolver as such), and its message
    is the configuration message or starts with one of the two prefixes. *)
Theorem chat_error_messages (args : ChatArgs) (context : Context)
    (log l : list event) (e : exn) :
  chat args context log = (Throw e, l) ->
  exn_class e = Error
  /\ (exn_message e = "OpenAI API key is not configured"
      \/ (exists m, exn_message e = "OpenAI API Error: " +:+ m)
      \/ (exists m, exn_message e = "Failed to call OpenAI API: " +:+ m)).
Proof.
  rewrite chat_cases. intros H.
  destruct (truthy _).
  - assert (He : exists e0, e = translated e0).
    { destruct (OpenAI_new _) as [openai|e0].
      - cbv zeta in H.
        destruct (completions_create openai _) as [completion|e1].
        + destruct (fst (response_of completion _)) as [v|e1]; [discriminate|].
          injection H as <- _. eexists. reflexivity.
        + injection H as <- _. eexists. reflexivity.
      - injection H as <- _. eexists. reflexivity. }
    destruct He as (e0 & ->).
    destruct (translated_shape e0) as (Hcls & Hmsg).
    split; [exact Hcls|]. right. exact Hmsg.
  - injection H as <- _. split; [reflexivity|]. left. reflexivity.
Qed.

(** ** The credential *)

Lemma effect_free_ret {A} (a : A) : effect_free (ret a).
Proof. exists (Normal a). reflexivity. Qed.

Lemma effect_free_throw {A} (e : exn) : effect_free (@throw A e).
Proof. exists (Throw e). reflexivity. Qed.

Lemma effect_free_bind {A B} (m : M A) (k : A -> M B) :
  effect_free m -> (forall a, effect_free (k a)) -> effect_free (bind m k).
Proof.
  intros [r Hm] Hk. destruct r as [a|e].
  - destruct (Hk a) as [r Hka]. exists r. intros log.
    unfold bind. rewrite Hm. apply Hka.
  - exists (Throw e). intros log. unfold bind. now rewrite Hm.
Qed.

Lemma effect_free_get_prop (v : value) (k : string) : effect_free (get_prop v k).
Proof. destruct v; eexists; reflexivity. Qed.

Lemma effect_free_get_index0 (v : value) : effect_free (get_index0 v).
Proof. destruct v; eexists; reflexivity. Qed.

Create HintDb effect_free.
#[local] Hint Resolve effect_free_ret effect_free_throw effect_free_get_prop
  effect_free_get_index0 : effect_free.

Lemma effect_free_response_of (completion : value) :
  effect_free (response_of completion).
Proof.
  unfold response_of.
  repeat (apply effect_free_bind; [auto with effect_free|intros ?]);
    try destruct (truthy _);
    repeat (apply effect_free_bind; [auto with effect_free|intros ?]);
    auto with effect_free.
Qed.

(** X8: the credential reaches the SDK constructor and nothing else: two
    contexts whose keys give the same client get the same outcome from
    [chat], value or error. *)
Theorem chat_credential_confined (args : ChatArgs) (context1 context2 : Context)
    (openai : client) (log : list event) :
  truthy (obj_get (env context1) "OPENAI_API_KEY") = true ->
  truthy (obj_get (env context2) "OPENAI_API_KEY") = true ->
  OpenAI_new (client_options context1) = Normal openai ->
  OpenAI_new (client_options context2) = Normal openai ->
  fst (chat args context1 log) = fst (chat args context2 log).
Proof.
  intros Hkey1 Hkey2 Hnew1 Hnew2.
  rewrite !chat_cases, Hkey1, Hkey2, Hnew1, Hnew2. cbv zeta. cbn [fst].
  destruct (completions_create openai _) as [completion|e]; [|reflexivity].
  destruct (effect_free_response_of completion) as [r Hr].
  now rewrite !Hr.
Qed.

(** ** Edge cases of the response mapping *)

(** X9: an upstream [usage] that is there but falsy ([null], [0], an empty
    string, [false]) gives [usage: null], like a missing one. *)
Theorem chat_usage_falsy (args : ChatArgs) (context : Context)
    (openai : client) (log : list event)
    (c ch m : obj) (others : list value) :
  truthy (obj_get (env context) "OPENAI_API_KEY") = true ->
  OpenAI_new (client_options context) = Normal openai ->
  completions_create openai (VObj (requestParams_of args)) = Normal (VObj c) ->
  obj_get c "choices" = VArr (VObj ch :: others) ->
  obj_get ch "message" = VObj m ->
  truthy (obj_get c "usage") = false ->
  fst (chat args context log)
  = Normal (VObj [ ("id", obj_get c "id");
                   ("object", obj_get c "object");
                   ("created", obj_get c "created");
                   ("model", obj_get c "model");
                   ("message", VObj [ ("role", obj_get m "role");
                                      ("content", obj_get m "content") ]);
                   ("usage", VNull) ]).
Proof.
  intros Hkey Hnew Hok Hchoices Hmessage Husage.
  rewrite chat_cases, Hkey, Hnew. cbv zeta. rewrite Hok. cbn [fst].
  unfold response_of, bind, get_prop, get_index0, ret.
  rewrite Hchoices, Hmessage, Husage. reflexivity.
Qed.

(** X10: only the first choice counts: two completions that agree on
    every property but [choices], and whose [choices] start with the same
    element, are mapped to the same result. *)
Theorem response_of_first_choice_only (c1 c2 : obj) (choice : value)
    (others1 others2 : list value) (log : list event) :
  obj_get c1 "choices" = VArr (choice :: others1) ->
  obj_get c2 "choices" = VArr (choice :: others2) ->
  (forall k, k <> "choices" -> obj_get c1 k = obj_get c2 k) ->
  response_of (VObj c1) log = response_of (VObj c2) log.
Proof.
  intros H1 H2 Hsame.
  unfold response_of, bind. cbn [get_prop ret]. rewrite H1, H2.
  rewrite !(Hsame "id"), !(Hsame "object"), !(Hsame "created"),
    !(Hsame "model"), !(Hsame "usage") by discriminate.
  reflexivity.
Qed.

(** X11: a completion that is not an object ([undefined], [null], a
    string, an array, ...), or whose first choice has no [message], is
    reported as [Failed to call OpenAI API: ], and no response is
    returned. *)
Theorem chat_malformed_completion (args : ChatArgs) (context : Context)
    (openai : client) (log : list event) (completion : value) :
  truthy (obj_get (env context) "OPENAI_API_KEY") = true ->
  OpenAI_new (client_options context) = Normal openai ->
  completions_create openai (VObj (requestParams_of args)) = Normal completion ->
  (forall c, completion <> VObj c)
  \/ (exists c ch others,
        completion = VObj c
        /\ obj_get c "choices" = VArr (VObj ch :: others)
        /\ (obj_get ch "message" = VUndefined \/ obj_get ch "message" = VNull)) ->
  exists msg,
    fst (chat args context log)
    = Throw (mkExn Error ("Failed to call OpenAI API: " +:+ msg)).
Proof.
  intros Hkey Hnew Hok Hshape.
  rewrite chat_cases, Hkey, Hnew. cbv zeta. rewrite Hok. cbn [fst].
  destruct Hshape as [Hnot|(c & ch & others & -> & Hchoices & Hmessage)].
  - destruct completion; try (eexists; reflexivity).
    exfalso. exact (Hnot _ eq_refl).
  - unfold response_of, bind, get_prop, get_index0, ret.
    rewrite Hchoices.
    destruct Hmessage as [->| ->]; eexists; reflexivity.
Qed.

(** ** Schema defaults and the request parameters *)

(** X12: the default the schema declares for [top_p], [frequency_penalty]
    and [presence_penalty] is the value the resolver leaves out: an
    argument whose value is its schema default is not in the request
    parameters. *)
Theorem schema_defaults_not_sent (a : ChatArgs) (k : string) (d : value) :
  k = "top_p" \/ k = "frequency_penalty" \/ k = "presence_penalty" ->
  Schema.default_in Schema.chat_arguments k = Some d ->
  chat_arg a k = Some d ->
  obj_lookup (requestParams_of a) k = None.
Proof.
  destruct (requestParams_optional_fields a) as (Htp & Hfp & Hpp).
  intros [->|[->| ->]] Hdefault Harg;
    cbn in Hdefault, Harg; injection Hdefault as <-; injection Harg as Harg.
  - rewrite Htp, Harg. reflexivity.
  - rewrite Hfp, Harg. reflexivity.
  - rewrite Hpp, Harg. reflexivity.
Qed.

(** ** The dispatch layer, route by route *)

Lemma cors_set_union (hs : gmap string string) :
  Headers_set "Access-Control-Allow-Headers" "Content-Type, Authorization"
    (Headers_set "Access-Control-Allow-Methods" "GET, POST, OPTIONS"
       (Headers_set "Access-Control-Allow-Origin" "*" hs))
  = cors_headers ∪ filter (fun kv => cors_name kv.1 = false) hs.
Proof.
  unfold cors_headers. apply map_eq. intros k.
  rewrite !lookup_Headers_set, lookup_union, map_lookup_filter.
  destruct (decide (k = "Access-Control-Allow-Headers")) as [->|H1].
  { simplify_map_eq. by destruct (hs !! _). }
  destruct (decide (k = "Access-Control-Allow-Methods")) as [->|H2].
  { simplify_map_eq. by destruct (hs !! _). }
  destruct (decide (k = "Access-Control-Allow-Origin")) as [->|H3].
  { simplify_map_eq. by destruct (hs !! _). }
  rewrite !lookup_insert_ne, lookup_singleton_ne by done.
  unfold cors_name. simpl.
  destruct (same_header_name k "Access-Control-Allow-Headers");
    destruct (same_header_name k "Access-Control-Allow-Methods");
    destruct (same_header_name k "Access-Control-Allow-Origin");
    destruct (hs !! k); simpl; try done; by case_guard.
Qed.

(** X13: [setCorsHeaders] keeps the status, the body and every header
    whose name is not one of the three CORS names; a header the response
    had under one of those names, in whatever case it was written, is
    replaced: the headers are the three together with the old ones under
    other names. *)
Theorem setCorsHeaders_union (response : Response) :
  status (setCorsHeaders response) = status response
  /\ body (setCorsHeaders response) = body response
  /\ headers (setCorsHeaders response)
     = cors_headers
       ∪ filter (fun kv => cors_name kv.1 = false) (headers response).
Proof.
  split; [reflexivity|]. split; [reflexivity|].
  apply cors_set_union.
Qed.

(** X14: applying [setCorsHeaders] twice is the same as applying it
    once. *)
Theorem setCorsHeaders_idempotent (response : Response) :
  setCorsHeaders (setCorsHeaders response) = setCorsHeaders response.
Proof.
  unfold setCorsHeaders. cbn [status headers body]. f_equal.
  apply map_eq. intros k. rewrite !lookup_Headers_set.
  repeat case_decide; try done.
  destruct (same_header_name k "Access-Control-Allow-Headers");
    destruct (same_header_name k "Access-Control-Allow-Methods");
    destruct (same_header_name k "Access-Control-Allow-Origin"); done.
Qed.

Lemma content_type_no_cors (t k : string) :
  cors_name k = true -> content_type t !! k = None.
Proof.
  intros Hk. unfold content_type. apply lookup_singleton_ne.
  intros <-. discriminate Hk.
Qed.

(** The response a route builds, with its headers written out. *)
Lemma cors_response (b : body_init) (st : option Z) (hs : gmap string string) :
  (forall k, cors_name k = true -> hs !! k = None) ->
  setCorsHeaders (new_Response b st hs)
  = {| status := default 200 st; headers := cors_headers ∪ hs; body := b |}.
Proof.
  intros Hhs. unfold setCorsHeaders, new_Response. cbn [status headers body].
  f_equal. rewrite cors_set_union. f_equal.
  apply map_filter_id. intros k v Hk. cbn.
  destruct (cors_name k) eqn:Hc; [|reflexivity].
  rewrite (Hhs k Hc) in Hk. discriminate.
Qed.

(** X15: an OPTIONS request, whatever its path and body, gets status 200,
    no body and exactly the three CORS headers; nothing is parsed, run or
    logged. *)
Theorem fetch_preflight (request : Request) (env : obj) (log : list event) :
  method request = "OPTIONS" ->
  fetch request env log
  = (Normal {| status := 200; headers := cors_headers; body := BodyNull |}, log).
Proof.
  intros Hmethod. unfold fetch. rewrite Hmethod. cbn [String.eqb Ascii.eqb Bool.eqb].
  rewrite cors_response by (intros; apply lookup_empty).
  unfold ret. cbn [default].
  by rewrite (right_id_L ∅ (∪)).
Qed.

(** X16: a GET of [/graphql] gets the console page, as [text/html] with
    status 200; the engine is not run and nothing is logged. *)
Theorem fetch_playground (request : Request) (env : obj) (log : list event) :
  method request = "GET" ->
  pathname request = "/graphql" ->
  fetch request env log
  = (Normal {| status := 200;
               headers := cors_headers ∪ {[ "Content-Type" := "text/html" ]};
               body := BodyText getGraphQLPlayground |}, log).
Proof.
  intros Hmethod Hpath. unfold fetch. rewrite Hmethod, Hpath.
  cbn [String.eqb Ascii.eqb Bool.eqb].
  rewrite cors_response by apply content_type_no_cors. reflexivity.
Qed.

(** X17: [/health] does not look at the method: every request to it other
    than OPTIONS, a POST or a DELETE as well as a GET, gets the health
    body with status 200. *)
Theorem fetch_health_any_method (request : Request) (env : obj)
    (log : list event) :
  method request <> "OPTIONS" ->
  pathname request = "/health" ->
  fetch request env log
  = (Normal {| status := 200;
               headers := cors_headers ∪ {[ "Content-Type" := "application/json" ]};
               body := BodyJSON (VObj [ ("status", VStr "ok");
                 ("timestamp", VStr (Date.toISOString Date_now)) ]) |}, log).
Proof.
  intros Hmethod Hpath. apply String.eqb_neq in Hmethod.
  unfold fetch. rewrite Hmethod, Hpath.
  cbn [String.eqb Ascii.eqb Bool.eqb].
  rewrite cors_response by apply content_type_no_cors. reflexivity.
Qed.

(** X18: a request to [/graphql] with a method other than OPTIONS, GET and
    POST (a PUT, say) is not refused: it gets the description of the
    endpoints with status 200. *)
Theorem fetch_graphql_other_method (request : Request) (env : obj)
    (log : list event) :
  method request <> "OPTIONS" ->
  method request <> "GET" ->
  method request <> "POST" ->
  pathname request = "/graphql" ->
  fetch request env log
  = (Normal {| status := 200;
               headers := cors_headers ∪ {[ "Content-Type" := "application/json" ]};
               body := BodyJSON endpoints_description |}, log).
Proof.
  intros Hoptions Hget Hpost Hpath.
  apply String.eqb_neq in Hoptions, Hget, Hpost.
  unfold fetch. rewrite Hoptions, Hget, Hpost, Hpath.
  cbn [String.eqb Ascii.eqb Bool.eqb].
  rewrite cors_response by apply content_type_no_cors. reflexivity.
Qed.

(** ** The dispatch layer, for every request *)

(** Every response is built by [setCorsHeaders (new Response ...)]; the
    status is 400 only in the [catch] of the POST route, and the content
    type is [text/html] only for the console page. *)
Lemma fetch_response_form (request : Request) (env : obj) (log : list event) :
  exists b st hs l,
    fetch request env log = (Normal (setCorsHeaders (new_Response b st hs)), l)
    /\ (st = None \/ st = Some 200
        \/ (st = Some 400 /\ method request = "POST"
            /\ pathname request = "/graphql"
            /\ exists e, b = BodyJSON (error_envelope e)))
    /\ hs = (if String.eqb (method request) "OPTIONS" then ∅
             else content_type
                    (if String.eqb (method request) "GET"
                        && String.eqb (pathname request) "/graphql"
                     then "text/html" else "application/json")).
Proof.
  unfold fetch.
  destruct (String.eqb_spec (method request) "OPTIONS") as [Hoptions|Hoptions].
  { do 4 eexists. split; [reflexivity|]. split; [tauto|reflexivity]. }
  destruct (String.eqb_spec (pathname request) "/graphql") as [Hpath|Hpath].
  - destruct (String.eqb_spec (method request) "GET") as [Hget|Hget].
    { do 4 eexists. split; [reflexivity|]. split; [tauto|reflexivity]. }
    destruct (String.eqb_spec (method request) "POST") as [Hpost|Hpost].
    + unfold try_catch, bind, await.
      destruct (json request) as [parsed|e].
      * destruct (destructure3 parsed "query" "variables" "operationName" log)
          as [[[[q v] o]|e] log1].
        -- destruct (graphql _ log1) as [[result|e] log2].
           ++ do 4 eexists. split; [reflexivity|]. split; [tauto|reflexivity].
           ++ do 4 eexists. split; [reflexivity|].
              split; [right; right; eauto|reflexivity].
        -- do 4 eexists. split; [reflexivity|].
           split; [right; right; eauto|reflexivity].
      * do 4 eexists. split; [reflexivity|].
        split; [right; right; eauto|reflexivity].
    + destruct (String.eqb (pathname request) "/health");
        do 4 eexists; (split; [reflexivity|]); (split; [tauto|]);
        rewrite ?andb_false_r; reflexivity.
  - destruct (String.eqb (pathname request) "/health");
      do 4 eexists; (split; [reflexivity|]); (split; [tauto|]);
      rewrite ?andb_false_r; reflexivity.
Qed.

(** X19: the status of a response is 200 or 400, and it is 400 only for a
    POST to [/graphql], with the error envelope as the body: no request
    is answered with 404, 405 or 500. *)
Theorem fetch_status_codes (request : Request) (env : obj) (log : list event) :
  exists r l,
    fetch request env log = (Normal r, l)
    /\ (status r = 200
        \/ (status r = 400 /\ method request = "POST"
            /\ pathname request = "/graphql"
            /\ exists e, body r = BodyJSON (error_envelope e))).
Proof.
  destruct (fetch_response_form request env log)
    as (b & st & hs & l & Hfetch & Hst & _).
  do 2 eexists. split; [exact Hfetch|].
  destruct Hst as [->|[->|(-> & Hm & Hp & e & ->)]].
  - left. reflexivity.
  - left. reflexivity.
  - right. cbn. eauto.
Qed.

(** X20: the headers of a response are the three CORS headers and, for
    every method but OPTIONS, a [Content-Type], which is [text/html] for
    the console page and [application/json] otherwise; there is no other
    header. *)
Theorem fetch_headers (request : Request) (env : obj) (log : list event) :
  exists r l,
    fetch request env log = (Normal r, l)
    /\ headers r
       = cors_headers
         ∪ (if String.eqb (method request) "OPTIONS" then ∅
            else {[ "Content-Type" :=
                      if String.eqb (method request) "GET"
                         && String.eqb (pathname request) "/graphql"
                      then "text/html" else "application/json" ]}).
Proof.
  destruct (fetch_response_form request env log)
    as (b & st & hs & l & Hfetch & _ & ->).
  do 2 eexists. split; [exact Hfetch|].
  rewrite cors_response; [reflexivity|].
  destruct (String.eqb (method request) "OPTIONS");
    [intros; apply lookup_empty|apply content_type_no_cors].
Qed.

(** X21: a POST to [/graphql] whose body is the JSON value [null] is
    answered with status 400 and the error envelope; the engine is not
    run. *)
Theorem fetch_null_body (request : Request) (env : obj) (log : list event) :
  method request = "POST" ->
  pathname request = "/graphql" ->
  json request = Normal VNull ->
  exists r msg,
    fetch request env log = (Normal r, log)
    /\ status r = 400
    /\ body r
       = BodyJSON (VObj [ ("errors", VArr [ VObj [ ("message", VStr msg) ] ]) ]).
Proof.
  intros Hmethod Hpath Hjson. unfold fetch. rewrite Hmethod, Hpath, Hjson.
  cbn [String.eqb Ascii.eqb Bool.eqb].
  do 2 eexists. split; [reflexivity|]. split; reflexivity.
Qed.

End Worker.

(** * The statements at sample inputs *)

Lemma chat_payload_fields_witness :
  truthy (obj_get (env Examples.ctx_with_key) "OPENAI_API_KEY") = true
  /\ (exists r,
        chat unit Examples.sdk_new (Examples.sdk_returns Examples.completion_with_usage)
          Samples.args_readme Examples.ctx_with_key []
        = (r, [ EvNewClient (client_options Examples.ctx_with_key);
                EvCreate (VObj (requestParams_of Samples.args_readme)) ]))
  /\ obj_lookup (requestParams_of Samples.args_readme) "model" = Some (VStr "gpt-4")
  /\ obj_lookup (requestParams_of Samples.args_readme) "top_p" = Some (VNum num_0_9)
  /\ obj_lookup (requestParams_of Samples.args_readme) "frequency_penalty"
     = Some (VNum num_0_1)
  /\ obj_lookup (requestParams_of Samples.args_readme) "presence_penalty"
     = Some (VNum num_0_1)
  /\ obj_lookup (requestParams_of Examples.args_default) "top_p" = None
  /\ obj_lookup (requestParams_of Examples.args_default) "frequency_penalty" = None
  /\ obj_lookup (requestParams_of Examples.args_default) "presence_penalty" = None.
Proof.
  pose proof (chat_payload_fields unit Examples.sdk_new
                (Examples.sdk_returns Examples.completion_with_usage)
                Samples.args_readme Examples.ctx_with_key tt [] eq_refl eq_refl) as H1.
  pose proof (chat_payload_fields unit Examples.sdk_new
                (Examples.sdk_returns Examples.completion_with_usage)
                Examples.args_default Examples.ctx_with_key tt [] eq_refl eq_refl) as H2.
  cbv zeta in H1, H2.
  destruct H1 as (Hsent & (Hmodel & _) & _ & _ & _ & _ & _ & _ & Hincl
                  & _ & Hgfp & Hgpp).
  destruct H2 as (_ & _ & _ & _ & _ & Htp & Hfp & Hpp & _).
  split; [reflexivity|]. split; [exact Hsent|]. split; [exact Hmodel|].
  split; [apply Hincl; reflexivity|].
  split; [apply Hgfp; [discriminate|reflexivity]|].
  split; [apply Hgpp; [discriminate|reflexivity]|].
  split; [apply Htp; right; reflexivity|].
  split; [apply Hfp; right; reflexivity|apply Hpp; right; reflexivity].
Defined.

Lemma chat_messages_preserved_witness :
  exists r p,
    chat unit Examples.sdk_new (Examples.sdk_returns Examples.completion_with_usage)
      Examples.args_default Examples.ctx_with_key []
    = (r, [ EvNewClient (client_options Examples.ctx_with_key); EvCreate (VObj p) ])
    /\ obj_lookup p "messages" = Some (VArr [Examples.system_prompt; Examples.hello]).
Proof.
  apply (chat_messages_preserved unit Examples.sdk_new
           (Examples.sdk_returns Examples.completion_with_usage)
           Examples.args_default Examples.ctx_with_key tt [] [Examples.system_prompt; Examples.hello]);
    [reflexivity|reflexivity|reflexivity|discriminate].
Defined.



Lemma chat_success_mapping_witness :
  (exists log',
     chat unit Examples.sdk_new (Examples.sdk_returns Examples.completion_with_usage)
       Examples.args_default Examples.ctx_with_key []
     = (Normal (VObj [ ("id", VStr "chatcmpl-1");
                       ("object", VStr "chat.completion");
                       ("created", VNum Examples.num_created);
                       ("model", VStr "gpt-3.5-turbo-0125");
                       ("message", Examples.reply);
                       ("usage",
                        VObj [ ("prompt_tokens", VNum Examples.num_9);
                               ("completion_tokens", VNum Examples.num_12);
                               ("total_tokens", VNum Examples.num_21) ]) ]),
        log'))
  /\ (exists log',
        chat unit Examples.sdk_new (Examples.sdk_returns Examples.completion_without_usage)
          Examples.args_default Examples.ctx_with_key []
        = (Normal (VObj [ ("id", VStr "chatcmpl-2");
                          ("object", VStr "chat.completion");
                          ("created", VNum Examples.num_created);
                          ("model", VStr "gpt-4");
                          ("message", Examples.reply);
                          ("usage", VNull) ]),
           log')).
Proof.
  split.
  - destruct (chat_success_mapping unit Examples.sdk_new
                (Examples.sdk_returns Examples.completion_with_usage)
                Examples.args_default Examples.ctx_with_key tt [] _ _ _ _
                eq_refl eq_refl eq_refl eq_refl eq_refl) as (log' & Hwith & _).
    exists log'. exact (Hwith _ eq_refl).
  - destruct (chat_success_mapping unit Examples.sdk_new
                (Examples.sdk_returns Examples.completion_without_usage)
                Examples.args_default Examples.ctx_with_key tt [] _ _ _ _
                eq_refl eq_refl eq_refl eq_refl eq_refl) as (log' & _ & Hwithout).
    exists log'. exact (Hwithout eq_refl).
Defined.

Lemma chat_no_choices_witness :
  (exists msg log',
     chat unit Examples.sdk_new (Examples.sdk_returns Examples.completion_empty_choices)
       Examples.args_default Examples.ctx_with_key []
     = (Throw (mkExn Error ("Failed to call OpenAI API: " +:+ msg)), log'))
  /\ (exists msg log',
        chat unit Examples.sdk_new (Examples.sdk_returns Examples.completion_no_choices)
          Examples.args_default Examples.ctx_with_key []
        = (Throw (mkExn Error ("Failed to call OpenAI API: " +:+ msg)), log')).
Proof.
  split.
  - apply (chat_no_choices unit Examples.sdk_new
             (Examples.sdk_returns Examples.completion_empty_choices)
             Examples.args_default Examples.ctx_with_key tt [] _ eq_refl eq_refl eq_refl).
    right. reflexivity.
  - apply (chat_no_choices unit Examples.sdk_new
             (Examples.sdk_returns Examples.completion_no_choices)
             Examples.args_default Examples.ctx_with_key tt [] _ eq_refl eq_refl eq_refl).
    left. reflexivity.
Defined.

Lemma chat_missing_credential_witness :
  truthy (obj_get (env Examples.ctx_without_key) "OPENAI_API_KEY") = false
  /\ exists e,
       chat unit Examples.sdk_new (Examples.sdk_returns Examples.completion_with_usage)
         Examples.args_default Examples.ctx_without_key []
       = (Throw e, [])
       /\ exn_message e = "OpenAI API key is not configured"
       /\ String.index 0 "API key" (exn_message e) = Some 7%nat.
Proof.
  split; [reflexivity|].
  apply (chat_missing_credential unit Examples.sdk_new
           (Examples.sdk_returns Examples.completion_with_usage)
           Examples.args_default Examples.ctx_without_key []).
  reflexivity.
Defined.

Lemma graphql_post_errors_witness :
  (exists r,
     fetch unit Examples.sdk_new (Examples.sdk_returns Examples.completion_with_usage)
       (Examples.engine_returns Examples.health_result) "" 0
       (Examples.post_graphql (Throw Examples.bad_json)) [] []
     = (Normal r, [])
     /\ status r = 400
     /\ body r = BodyJSON (VObj [ ("errors",
          VArr [ VObj [ ("message",
            VStr "Unexpected token h in JSON at position 1") ] ]) ]))
  /\ (exists r,
        fetch unit Examples.sdk_new (Examples.sdk_returns Examples.completion_with_usage)
          (Examples.engine_throws Examples.bad_variables) "" 0
          (Examples.post_graphql (Normal Examples.health_query)) [] []
        = (Normal r, [])
        /\ status r = 400
        /\ body r = BodyJSON (VObj [ ("errors",
             VArr [ VObj [ ("message", VStr (exn_message Examples.bad_variables)) ] ]) ]))
  /\ (exists r,
        fetch unit Examples.sdk_new (Examples.sdk_returns Examples.completion_with_usage)
          (Examples.engine_runs_chat Examples.args_default) "" 0
          (Examples.post_graphql (Normal Examples.chat_query)) [] []
        = (Normal r, [])
        /\ status r = 200
        /\ body r = BodyJSON (VObj [ ("errors",
             VArr [ VObj [ ("message",
               VStr "OpenAI API key is not configured") ] ]);
             ("data", VNull) ])).
Proof.
  split; [|split].
  - destruct (graphql_post_errors unit Examples.sdk_new
                (Examples.sdk_returns Examples.completion_with_usage)
                (Examples.engine_returns Examples.health_result) "" 0
                (Examples.post_graphql (Throw Examples.bad_json)) [] [] eq_refl eq_refl)
      as (Hjson & _ & _).
    exact (Hjson Examples.bad_json eq_refl).
  - destruct (graphql_post_errors unit Examples.sdk_new
                (Examples.sdk_returns Examples.completion_with_usage)
                (Examples.engine_throws Examples.bad_variables) "" 0
                (Examples.post_graphql (Normal Examples.health_query)) [] [] eq_refl eq_refl)
      as (_ & Hthrows & _).
    exact (Hthrows _ Examples.bad_variables [] eq_refl eq_refl).
  - destruct (graphql_post_errors unit Examples.sdk_new
                (Examples.sdk_returns Examples.completion_with_usage)
                (Examples.engine_runs_chat Examples.args_default) "" 0
                (Examples.post_graphql (Normal Examples.chat_query)) [] [] eq_refl eq_refl)
      as (_ & _ & Hresult).
    exact (Hresult _ _ [] eq_refl eq_refl).
Defined.

Lemma fetch_routing_witness :
  Date.time_value 1793632496789
  /\ (exists r ts,
        fetch unit Examples.sdk_new (Examples.sdk_returns Examples.completion_with_usage)
          (Examples.engine_returns Examples.health_result) "" 1793632496789
          Examples.get_health [] []
        = (Normal r, [])
        /\ status r = 200
        /\ body r = BodyJSON (VObj [ ("status", VStr "ok");
                                     ("timestamp", VStr ts) ])
        /\ Date.is_iso8601 ts = true)
  /\ (exists r,
        fetch unit Examples.sdk_new (Examples.sdk_returns Examples.completion_with_usage)
          (Examples.engine_returns Examples.health_result) "" 1793632496789
          Examples.get_root [] []
        = (Normal r, [])
        /\ status r = 200
        /\ body r = BodyJSON endpoints_description)
  /\ (exists r,
        fetch unit Examples.sdk_new (Examples.sdk_returns Examples.completion_with_usage)
          (Examples.engine_returns Examples.health_result) "" 1793632496789
          Examples.options_elsewhere [] []
        = (Normal r, [])
        /\ status r = 200
        /\ body r = BodyNull).
Proof.
  assert (Hnow : Date.time_value 1793632496789) by (unfold Date.time_value; lia).
  split; [exact Hnow|]. split; [|split].
  - apply (fetch_routing unit Examples.sdk_new (Examples.sdk_returns Examples.completion_with_usage)
             (Examples.engine_returns Examples.health_result) "" 1793632496789
             Examples.get_health [] []); [reflexivity|reflexivity|exact Hnow].
  - apply (fetch_routing unit Examples.sdk_new (Examples.sdk_returns Examples.completion_with_usage)
             (Examples.engine_returns Examples.health_result) "" 1793632496789
             Examples.get_root [] []); discriminate.
  - apply (fetch_routing unit Examples.sdk_new (Examples.sdk_returns Examples.completion_with_usage)
             (Examples.engine_returns Examples.health_result) "" 1793632496789
             Examples.options_elsewhere [] []). reflexivity.
Defined.

(** C6 as stated fails: an OPTIONS request to a path other than [/graphql]
    and [/health] gets the empty preflight response, not the description of
    the endpoints. *)
Lemma any_method_description_counterexample :
  ~ (forall (client : Type) (OpenAI_new : value -> outcome client)
       (completions_create : client -> value -> outcome value)
       (graphql : GraphQLArgs -> M value) (page : string) (now : Z)
       (request : Request) (env : obj) (log : list event),
       pathname request <> "/graphql" ->
       pathname request <> "/health" ->
       exists r log',
         fetch client OpenAI_new completions_create graphql page now
           request env log = (Normal r, log')
         /\ body r = BodyJSON endpoints_description).
Proof.
  intros Hclaim.
  destruct (Hclaim unit Examples.sdk_new (Examples.sdk_returns Examples.completion_with_usage)
              (Examples.engine_returns Examples.health_result) "" 0
              Examples.options_elsewhere [] [])
    as (r & log' & Hfetch & Hbody); [discriminate|discriminate|].
  cbv [fetch Examples.options_elsewhere method String.eqb Ascii.eqb Bool.eqb ret] in Hfetch.
  injection Hfetch as Hr _. subst r. discriminate Hbody.
Qed.


(** * Further properties at sample inputs, and across engines *)

(** X22: for every request that is not a POST to [/graphql], the response
    depends on the method and the path alone (and on the page and the
    clock): not on the body, not on the bindings, not on the engine; and
    nothing is logged. *)
Theorem fetch_engine_only_on_post
    (client : Type) (OpenAI_new : value -> outcome client)
    (completions_create : client -> value -> outcome value)
    (graphql1 graphql2 : GraphQLArgs -> M value) (page : string) (now : Z)
    (request1 request2 : Request) (env1 env2 : obj) (log : list event) :
  method request1 = method request2 ->
  pathname request1 = pathname request2 ->
  ~ (method request1 = "POST" /\ pathname request1 = "/graphql") ->
  fetch client OpenAI_new completions_create graphql1 page now request1 env1 log
  = fetch client OpenAI_new completions_create graphql2 page now request2 env2 log
  /\ snd (fetch client OpenAI_new completions_create graphql1 page now
            request1 env1 log) = log.
Proof.
  intros Hmethod Hpath Hnot. unfold fetch. rewrite <- Hmethod, <- Hpath.
  destruct (String.eqb_spec (method request1) "OPTIONS"); [split; reflexivity|].
  destruct (String.eqb_spec (pathname request1) "/graphql") as [Hp|Hp].
  - destruct (String.eqb_spec (method request1) "GET"); [split; reflexivity|].
    destruct (String.eqb_spec (method request1) "POST") as [Hm|Hm]; [tauto|].
    destruct (String.eqb (pathname request1) "/health"); split; reflexivity.
  - destruct (String.eqb (pathname request1) "/health"); split; reflexivity.
Qed.

Lemma requestParams_values_witness :
  obj_lookup (requestParams_of Examples.args_top_p_0_9) "frequency_penalty"
  = Some (VNum num_0_1)
  /\ chat_arg Examples.args_top_p_0_9 "frequency_penalty" = Some (VNum num_0_1).
Proof.
  split; [reflexivity|].
  apply (requestParams_values Examples.args_top_p_0_9 "frequency_penalty").
  reflexivity.
Defined.

Lemma requestParams_forwards_given_witness :
  obj_lookup (requestParams_of Samples.args_null_top_p) "top_p" = Some VNull
  /\ obj_lookup (requestParams_of Samples.args_null_top_p) "presence_penalty"
     = Some (VNum S754_nan)
  /\ obj_lookup (requestParams_of Samples.args_null_top_p) "frequency_penalty"
     = None.
Proof.
  destruct (requestParams_forwards_given Samples.args_null_top_p)
    as (Htp & _ & Hpp & Hfp & _).
  split; [apply Htp; [discriminate|reflexivity]|].
  split; [apply Hpp; [discriminate|reflexivity]|].
  apply Hfp. reflexivity.
Defined.

Lemma chat_constructor_failure_witness :
  chat unit Samples.sdk_new_fails (Examples.sdk_returns Examples.completion_with_usage)
    Examples.args_default Examples.ctx_with_key []
  = (Throw (mkExn Error
       "Failed to call OpenAI API: The OPENAI_API_KEY environment variable is missing or empty"),
     [EvNewClient (VObj [("apiKey", VStr "sk-test")])]).
Proof.
  apply (chat_constructor_failure unit Samples.sdk_new_fails
           (Examples.sdk_returns Examples.completion_with_usage)
           Examples.args_default Examples.ctx_with_key [] Samples.missing_credentials);
    reflexivity.
Defined.

Lemma chat_result_fields_witness :
  exists fs mfs,
    fst (chat unit Examples.sdk_new
           (Examples.sdk_returns Examples.completion_with_usage)
           Examples.args_default Examples.ctx_with_key []) = Normal (VObj fs)
    /\ map fst fs = ["id"; "object"; "created"; "model"; "message"; "usage"]
    /\ obj_get fs "message" = VObj mfs
    /\ map fst mfs = ["role"; "content"].
Proof.
  destruct (chat_result_fields unit Examples.sdk_new
              (Examples.sdk_returns Examples.completion_with_usage)
              Examples.args_default Examples.ctx_with_key [] _ _ eq_refl)
    as (fs & mfs & Hv & Hfs & Hm & Hmfs & _).
  exists fs, mfs. split; [now rewrite <- Hv|].
  split; [exact Hfs|]. split; [exact Hm|exact Hmfs].
Defined.

Lemma chat_error_messages_witness :
  exists e l,
    chat unit Examples.sdk_new (Examples.sdk_throws Examples.rate_limited)
      Examples.args_default Examples.ctx_with_key [] = (Throw e, l)
    /\ exn_class e = Error
    /\ (exn_message e = "OpenAI API key is not configured"
        \/ (exists m, exn_message e = "OpenAI API Error: " +:+ m)
        \/ (exists m, exn_message e = "Failed to call OpenAI API: " +:+ m)).
Proof.
  do 2 eexists. split; [reflexivity|].
  apply (chat_error_messages unit Examples.sdk_new
           (Examples.sdk_throws Examples.rate_limited)
           Examples.args_default Examples.ctx_with_key [] _ _ eq_refl).
Defined.

Lemma chat_credential_confined_witness :
  fst (chat unit Examples.sdk_new
         (Examples.sdk_returns Examples.completion_with_usage)
         Examples.args_default Examples.ctx_with_key [])
  = fst (chat unit Examples.sdk_new
           (Examples.sdk_returns Examples.completion_with_usage)
           Examples.args_default Samples.ctx_other_key []).
Proof.
  apply (chat_credential_confined unit Examples.sdk_new
           (Examples.sdk_returns Examples.completion_with_usage)
           Examples.args_default Examples.ctx_with_key Samples.ctx_other_key tt []);
    reflexivity.
Defined.

Lemma chat_usage_falsy_witness :
  fst (chat unit Examples.sdk_new
         (Examples.sdk_returns Samples.completion_usage_null)
         Examples.args_default Examples.ctx_with_key [])
  = Normal (VObj [ ("id", VStr "chatcmpl-5");
                   ("object", VStr "chat.completion");
                   ("created", VNum Examples.num_created);
                   ("model", VStr "gpt-4");
                   ("message", Examples.reply);
                   ("usage", VNull) ]).
Proof.
  apply (chat_usage_falsy unit Examples.sdk_new
           (Examples.sdk_returns Samples.completion_usage_null)
           Examples.args_default Examples.ctx_with_key tt [] _ _ _ _
           eq_refl eq_refl eq_refl eq_refl eq_refl eq_refl).
Defined.

Lemma response_of_first_choice_only_witness :
  response_of (VObj Samples.completion_two_choices) []
  = response_of (VObj Samples.completion_one_choice) [].
Proof.
  apply (response_of_first_choice_only Samples.completion_two_choices
           Samples.completion_one_choice
           (VObj [ ("message", Examples.reply) ])
           [VObj [ ("message", Examples.hello) ]] [] []);
    [reflexivity|reflexivity|].
  intros k Hk. unfold obj_get, Samples.completion_two_choices,
    Samples.completion_one_choice. cbn [obj_lookup].
  destruct (String.eqb "id" k); [reflexivity|].
  destruct (String.eqb_spec "choices" k) as [Heq|_]; [congruence|reflexivity].
Defined.

Lemma chat_malformed_completion_witness :
  exists msg,
    fst (chat unit Examples.sdk_new
           (Examples.sdk_returns Samples.completion_no_message)
           Examples.args_default Examples.ctx_with_key [])
    = Throw (mkExn Error ("Failed to call OpenAI API: " +:+ msg)).
Proof.
  apply (chat_malformed_completion unit Examples.sdk_new
           (Examples.sdk_returns Samples.completion_no_message)
           Examples.args_default Examples.ctx_with_key tt []
           Samples.completion_no_message eq_refl eq_refl eq_refl).
  right. do 3 eexists. split; [reflexivity|].
  split; [reflexivity|]. left. reflexivity.
Defined.

Lemma schema_defaults_not_sent_witness :
  Schema.default_in Schema.chat_arguments "frequency_penalty" = Some (VNum num_0_0)
  /\ obj_lookup (requestParams_of Examples.args_default) "frequency_penalty" = None.
Proof.
  split; [reflexivity|].
  apply (schema_defaults_not_sent Examples.args_default "frequency_penalty"
           (VNum num_0_0)); [right; left; reflexivity|reflexivity|reflexivity].
Defined.

Lemma fetch_preflight_witness :
  fetch unit Examples.sdk_new (Examples.sdk_returns Examples.completion_with_usage)
    (Examples.engine_throws Examples.bad_variables) "" 0
    Samples.options_graphql [] []
  = (Normal {| status := 200; headers := cors_headers; body := BodyNull |}, []).
Proof.
  apply (fetch_preflight unit Examples.sdk_new
           (Examples.sdk_returns Examples.completion_with_usage)
           (Examples.engine_throws Examples.bad_variables) "" 0
           Samples.options_graphql [] []).
  reflexivity.
Defined.

Lemma fetch_playground_witness :
  fetch unit Examples.sdk_new (Examples.sdk_returns Examples.completion_with_usage)
    (Examples.engine_throws Examples.bad_variables) "<!DOCTYPE html>" 0
    Samples.get_graphql [] []
  = (Normal {| status := 200;
               headers := cors_headers ∪ {[ "Content-Type" := "text/html" ]};
               body := BodyText "<!DOCTYPE html>" |}, []).
Proof.
  apply (fetch_playground unit Examples.sdk_new
           (Examples.sdk_returns Examples.completion_with_usage)
           (Examples.engine_throws Examples.bad_variables) "<!DOCTYPE html>" 0
           Samples.get_graphql [] []); reflexivity.
Defined.

Lemma fetch_health_any_method_witness :
  fetch unit Examples.sdk_new (Examples.sdk_returns Examples.completion_with_usage)
    (Examples.engine_throws Examples.bad_variables) "" 1793632496789
    Samples.post_health [] []
  = (Normal {| status := 200;
               headers := cors_headers ∪ {[ "Content-Type" := "application/json" ]};
               body := BodyJSON (VObj [ ("status", VStr "ok");
                 ("timestamp", VStr "2026-11-02T15:14:56.789Z") ]) |}, []).
Proof.
  apply (fetch_health_any_method unit Examples.sdk_new
           (Examples.sdk_returns Examples.completion_with_usage)
           (Examples.engine_throws Examples.bad_variables) "" 1793632496789
           Samples.post_health [] []); [discriminate|reflexivity].
Defined.

Lemma fetch_graphql_other_method_witness :
  fetch unit Examples.sdk_new (Examples.sdk_returns Examples.completion_with_usage)
    (Examples.engine_throws Examples.bad_variables) "" 0
    Samples.put_graphql [] []
  = (Normal {| status := 200;
               headers := cors_headers ∪ {[ "Content-Type" := "application/json" ]};
               body := BodyJSON endpoints_description |}, []).
Proof.
  apply (fetch_graphql_other_method unit Examples.sdk_new
           (Examples.sdk_returns Examples.completion_with_usage)
           (Examples.engine_throws Examples.bad_variables) "" 0
           Samples.put_graphql [] []);
    [discriminate|discriminate|discriminate|reflexivity].
Defined.

Lemma fetch_null_body_witness :
  exists r msg,
    fetch unit Examples.sdk_new (Examples.sdk_returns Examples.completion_with_usage)
      (Examples.engine_returns Examples.health_result) "" 0
      (Examples.post_graphql (Normal VNull)) [] []
    = (Normal r, [])
    /\ status r = 400
    /\ body r
       = BodyJSON (VObj [ ("errors", VArr [ VObj [ ("message", VStr msg) ] ]) ]).
Proof.
  apply (fetch_null_body unit Examples.sdk_new
           (Examples.sdk_returns Examples.completion_with_usage)
           (Examples.engine_returns Examples.health_result) "" 0
           (Examples.post_graphql (Normal VNull)) [] []); reflexivity.
Defined.

Lemma fetch_engine_only_on_post_witness :
  fetch unit Examples.sdk_new (Examples.sdk_returns Examples.completion_with_usage)
    (Examples.engine_returns Examples.health_result) "" 0
    Examples.get_root [] []
  = fetch unit Examples.sdk_new (Examples.sdk_returns Examples.completion_with_usage)
      (Examples.engine_throws Examples.bad_variables) "" 0
      {| method := "GET"; pathname := "/"; json := Normal Examples.chat_query |}
      (env Examples.ctx_with_key) [].
Proof.
  apply (fetch_engine_only_on_post unit Examples.sdk_new
           (Examples.sdk_returns Examples.completion_with_usage)
           (Examples.engine_returns Examples.health_result)
           (Examples.engine_throws Examples.bad_variables) "" 0
           Examples.get_root
           {| method := "GET"; pathname := "/"; json := Normal Examples.chat_query |}
           [] (env Examples.ctx_with_key) []);
    [reflexivity|reflexivity|].
  intros [Hm _]. discriminate Hm.
Defined.
